(** * Multi-sig wallet front end: the projection reducer and the web3 helpers

    A shallow embedding of
    - [src/contexts/MultiSigWallet.tsx]: the [reducer] of the wallet
      projection and the event callback of its [Updater];
    - [src/api/web3.ts]: [unlockAccount], [subscribeToAccount] and
      [subscribeToNetId];
    - [src/contexts/Web3.tsx]: the [reducer] of the connection state and
      the two callbacks of its [Updater];
    - [MEV-contract-uttamsingh/FrontRunMe.sol]: [deposit] and [withdraw].

    JavaScript values are modelled as the TypeScript interfaces declare
    them.  A [number] is an integer or [NaN]; arithmetic is exact, as
    IEEE doubles are on the safe integers (|z| < 2^53) that transaction
    indices and confirmation counts live in. *)

From Stdlib Require Import ZArith Lia Ascii.
From stdpp Require Import base option list strings gmap.

(** ** The fragment of the JavaScript runtime the sources use *)

Module JS.

Inductive number : Type :=
| NaN
| Num (z : Z).

(** [a === b] on numbers: [NaN] is equal to nothing, itself included. *)
Definition strict_eq (a b : number) : bool :=
  match a, b with
  | Num x, Num y => Z.eqb x y
  | _, _ => false
  end.

Definition add (a b : number) : number :=
  match a, b with
  | Num x, Num y => Num (x + y)
  | _, _ => NaN
  end.

Definition sub (a b : number) : number :=
  match a, b with
  | Num x, Num y => Num (x - y)
  | _, _ => NaN
  end.

(** [new Error(message)] *)
Record Error : Type := mkError { message : string }.

(** The outcome of evaluating code that may [throw]. *)
Inductive completion (A : Type) : Type :=
| Normal (a : A)
| Throw (e : Error).
Arguments Normal {A} a.
Arguments Throw {A} e.

#[export] Instance completion_ret : MRet completion := fun A a => Normal a.
#[export] Instance completion_bind : MBind completion := fun A B k m =>
  match m with
  | Normal a => k a
  | Throw e => Throw e
  end.

(** bn.js big numbers are unbounded integers. *)
Definition BN : Type := Z.

(** The two library functions the reducer calls.  [parseInt] never
    throws (it answers [NaN]); [Web3.utils.toBN] throws on a string
    that is not a number. *)
Class Builtins : Type := {
  parseInt : string -> number;
  toBN : string -> completion BN;
}.

End JS.

(** ** contexts/MultiSigWallet.tsx *)

Module MultiSigWallet.
Import JS.

Record Transaction : Type := mkTransaction {
  txIndex : number;
  to : string;
  value : BN;
  data : string;
  executed : bool;
  numConfirmations : number;
  isConfirmedByCurrentAccount : bool;
}.

Record State : Type := mkState {
  address : string;
  balance : string;
  owners : list string;
  numConfirmationsRequired : number;
  transactionCount : number;
  transactions : list Transaction;
}.

Definition INITIAL_STATE : State :=
  {| address := ""; balance := "0"; owners := [];
     numConfirmationsRequired := Num 0; transactionCount := Num 0;
     transactions := [] |}.

(** The [Action] union.  Optional fields ([executed?], [confirmed?])
    are [None] when absent ([undefined]). *)
Inductive Action : Type :=
| SET (data : State)
| UPDATE_BALANCE (balance : string)
| ADD_TX (txIndex to value data : string)
| UPDATE_TX (account txIndex owner : string) (executed confirmed : option bool).

(** [updatedTx.executed = true] *)
Definition set_executed (tx : Transaction) : Transaction :=
  {| txIndex := txIndex tx; to := to tx; value := value tx; data := data tx;
     executed := true;
     numConfirmations := numConfirmations tx;
     isConfirmedByCurrentAccount := isConfirmedByCurrentAccount tx |}.

(** [updatedTx.numConfirmations = n] *)
Definition set_numConfirmations (n : number) (tx : Transaction) : Transaction :=
  {| txIndex := txIndex tx; to := to tx; value := value tx; data := data tx;
     executed := executed tx;
     numConfirmations := n;
     isConfirmedByCurrentAccount := isConfirmedByCurrentAccount tx |}.

(** [updatedTx.isConfirmedByCurrentAccount = b] *)
Definition set_isConfirmedByCurrentAccount (b : bool) (tx : Transaction) : Transaction :=
  {| txIndex := txIndex tx; to := to tx; value := value tx; data := data tx;
     executed := executed tx;
     numConfirmations := numConfirmations tx;
     isConfirmedByCurrentAccount := b |}.

(** The body of the [if (tx.txIndex === txIndex)] branch of [UPDATE_TX]:
    a copy of [tx] with the assignments the action asks for. *)
Definition updatedTx (account owner : string) (executed confirmed : option bool)
    (tx : Transaction) : Transaction :=
  let u := tx in
  let u := match executed with
           | Some true => set_executed u
           | _ => u
           end in
  match confirmed with
  | None => u
  | Some true =>
      let u := set_numConfirmations (add (numConfirmations u) (Num 1)) u in
      set_isConfirmedByCurrentAccount (String.eqb owner account) u
  | Some false =>
      let u := set_numConfirmations (sub (numConfirmations u) (Num 1)) u in
      if String.eqb owner account
      then set_isConfirmedByCurrentAccount false u
      else u
  end.

Section Reducer.
Context `{Builtins}.

Definition reducer (state : State) (action : Action) : completion State :=
  match action with
  | SET data =>
      Normal data
  | UPDATE_BALANCE balance' =>
      Normal {| address := address state; balance := balance';
                owners := owners state;
                numConfirmationsRequired := numConfirmationsRequired state;
                transactionCount := transactionCount state;
                transactions := transactions state |}
  | ADD_TX txIndex' to' value' data' =>
      let idx := parseInt txIndex' in
      v ← toBN value';
      let transactions' :=
        {| txIndex := idx; to := to'; value := v; data := data';
           executed := false; numConfirmations := Num 0;
           isConfirmedByCurrentAccount := false |}
        :: transactions state in
      Normal {| address := address state; balance := balance state;
                owners := owners state;
                numConfirmationsRequired := numConfirmationsRequired state;
                transactionCount := add (transactionCount state) (Num 1);
                transactions := transactions' |}
  | UPDATE_TX account txIndex' owner executed' confirmed =>
      let idx := parseInt txIndex' in
      let transactions' :=
        (fun tx => if strict_eq (txIndex tx) idx
                   then updatedTx account owner executed' confirmed tx
                   else tx) <$> transactions state in
      Normal {| address := address state; balance := balance state;
                owners := owners state;
                numConfirmationsRequired := numConfirmationsRequired state;
                transactionCount := transactionCount state;
                transactions := transactions' |}
  end.

(** Modelled from the spec: the records that [subscribe] of
    api/multi-sig-wallet (not among the sources) hands to the callback
    of [Updater].  One constructor per [log.event]; the arguments are
    the fields of [log.returnValues], which are the parameters of the
    contract event (spec 4.1, and the assertions of
    test/multi-sig-wallet.js), decoded by web3 as strings. *)
Inductive Log : Type :=
| Deposit (sender amount balance : string)
| SubmitTransaction (owner txIndex to value data : string)
| ConfirmTransaction (owner txIndex : string)
| RevokeConfirmation (owner txIndex : string)
| ExecuteTransaction (owner txIndex : string)
| OtherEvent (event : string).

(** The callback [Updater] passes to [subscribe]: which action, if
    any, it dispatches.  [account] is the viewer identity taken from
    the Web3 context. *)
Definition Updater_callback (account : string)
    (error : option Error) (log : option Log) : option Action :=
  match error, log with
  | Some _, _ => None
  | None, None => None
  | None, Some (Deposit _ _ balance) =>
      Some (UPDATE_BALANCE balance)
  | None, Some (SubmitTransaction _ txIndex to value data) =>
      Some (ADD_TX txIndex to value data)
  | None, Some (ConfirmTransaction owner txIndex) =>
      Some (UPDATE_TX account txIndex owner None (Some true))
  | None, Some (RevokeConfirmation owner txIndex) =>
      Some (UPDATE_TX account txIndex owner None (Some false))
  | None, Some (ExecuteTransaction owner txIndex) =>
      Some (UPDATE_TX account txIndex owner (Some true) None)
  | None, Some (OtherEvent _) => None
  end.

(** Folding one notification into the projection: the callback runs
    and [useReducer] applies [reducer] to what it dispatched. *)
Definition fold (account : string) (state : State) (log : Log)
    : completion State :=
  match Updater_callback account None (Some log) with
  | Some action => reducer state action
  | None => Normal state
  end.

(** Folding a sequence of notifications in arrival order. *)
Fixpoint replay (account : string) (state : State) (logs : list Log)
    : completion State :=
  match logs with
  | [] => Normal state
  | log :: rest => state' ← fold account state log; replay account state' rest
  end.

End Reducer.

(** [tx.txIndex === parseInt(i)] holds for no local record. *)
Definition no_record `{Builtins} (i : string) (state : State) : Prop :=
  Forall (fun tx => strict_eq (txIndex tx) (parseInt i) = false) (transactions state).

(** The notifications addressed to the record with index [i] by owner [o]. *)
Inductive addressed_to (o i : string) : Log -> Prop :=
| addressed_confirm : addressed_to o i (ConfirmTransaction o i)
| addressed_revoke : addressed_to o i (RevokeConfirmation o i)
| addressed_execute : addressed_to o i (ExecuteTransaction o i).

End MultiSigWallet.

(** ** api/web3.ts *)

Module Web3Api.
Import JS.

(** The provider injected as [window.ethereum], as far as
    [unlockAccount] uses it: how the promise of [ethereum.enable()] and
    then the promise of [web3.eth.getAccounts()] settle. *)
Record Ethereum : Type := mkEthereum {
  enable : completion unit;
  getAccounts : completion (list string);
}.

(** [new Web3(ethereum)] *)
Record Web3 : Type := mkWeb3 { currentProvider : Ethereum }.

Record Unlocked : Type := mkUnlocked { web3 : Web3; account : string }.

(** [x || ""] on [string | undefined]: both [undefined] and the empty
    string are falsy. *)
Definition or_empty (x : option string) : string :=
  match x with
  | None => ""
  | Some s => if String.eqb s "" then "" else s
  end.

(** [window_ethereum] is [None] when [window.ethereum] is undefined. *)
Definition unlockAccount (window_ethereum : option Ethereum) : completion Unlocked :=
  match window_ethereum with
  | None => Throw (mkError "Web3 not found")
  | Some ethereum =>
      let web3 := mkWeb3 ethereum in
      _ ← enable ethereum;
      accounts ← getAccounts (currentProvider web3);
      Normal (mkUnlocked web3 (or_empty (accounts !! 0%nat)))
  end.

(** *** The polling subscriptions

    [subscribeToAccount] and [subscribeToNetId] have one shape: a
    [setInterval] whose handler is an async function that awaits a query
    of [web3] (which returns a promise) and then calls [callback], and a
    returned function that calls [clearInterval].  The handler is
    suspended at its [await], so a subscription is a state machine driven
    by the runtime: the timer fires, a pending query settles, the caller
    unsubscribes.  Here the callback is a function of its arguments that
    leaves the subscription alone, as the callbacks of contexts/Web3.tsx
    are; [Web3ApiReentrant] below takes any callback. *)

Section Polling.
(** [R]: what the awaited query resolves to; [V]: what the callback
    receives for it. *)
Context {R V : Type}.

(** One invocation [callback(error, value)]; [None] is [null]. *)
Definition Call : Type := option Error * option V.

Record Subscription : Type := mkSubscription {
  interval : bool;        (* the timer [id] has not been cleared *)
  pending : nat;          (* handlers suspended at their [await] *)
  calls : list Call;      (* invocations of [callback], latest first *)
}.

Inductive Event : Type :=
| Tick                        (* the interval fires *)
| Settle (r : completion R)   (* an awaited query resolves or rejects *)
| Unsubscribe.                (* the returned function is called *)

(** [setInterval(handler, 1000)] has just been called. *)
Definition subscribe : Subscription :=
  {| interval := true; pending := 0; calls := [] |}.

(** The returned function: [clearInterval(id)]. *)
Definition unsubscribe (s : Subscription) : Subscription :=
  {| interval := false; pending := pending s; calls := calls s |}.

(** One step of the runtime; [None] when the event cannot happen in [s].
    [handler r] is what a suspended handler does once its query has
    settled as [r]: the invocations of [callback] it makes, latest first. *)
Definition step (handler : completion R -> list Call)
    (s : Subscription) (ev : Event) : option Subscription :=
  match ev with
  | Tick =>
      if interval s
      then Some {| interval := true; pending := S (pending s); calls := calls s |}
      else None
  | Settle r =>
      match pending s with
      | O => None
      | S n => Some {| interval := interval s; pending := n;
                       calls := handler r ++ calls s |}
      end
  | Unsubscribe => Some (unsubscribe s)
  end.

Fixpoint run (handler : completion R -> list Call)
    (s : Subscription) (evs : list Event) : option Subscription :=
  match evs with
  | [] => Some s
  | ev :: rest => s' ← step handler s ev; run handler s' rest
  end.

End Polling.

(** The handler of [subscribeToAccount] from its [await] on: the rest of
    the [try] block, [callback(null, accounts[0])], where [accounts[0]] is
    [undefined] ([None]) for an empty list; and the [catch] block,
    [callback(error, null)], when the query rejected or [callback] threw. *)
Definition subscribeToAccount_handler
    (callback : @Call (option string) -> completion unit)
    (r : completion (list string)) : list (@Call (option string)) :=
  match r with
  | Normal accounts =>
      let c := (None, Some (accounts !! 0%nat)) in
      match callback c with
      | Normal _ => [c]
      | Throw error => [(Some error, None); c]
      end
  | Throw error => [(Some error, None)]
  end.

Definition subscribeToAccount : @Subscription (option string) := subscribe.

(** The handler of [subscribeToNetId]: [callback(null, netId)], and
    [callback(error, null)] from the [catch] block. *)
Definition subscribeToNetId_handler
    (callback : @Call number -> completion unit)
    (r : completion number) : list (@Call number) :=
  match r with
  | Normal netId =>
      let c := (None, Some netId) in
      match callback c with
      | Normal _ => [c]
      | Throw error => [(Some error, None); c]
      end
  | Throw error => [(Some error, None)]
  end.

Definition subscribeToNetId : @Subscription number := subscribe.

End Web3Api.

(** ** A runtime to evaluate the model in

    An instance of [JS.Builtins] for running the reducer on concrete
    notifications.  [parseInt] follows the ECMAScript algorithm on ASCII
    input (leading white space, sign, [0x] prefix, longest prefix of
    digits, [NaN] when there is none).  [toBN] accepts the decimal
    numerals that web3 decodes [uint] fields to, and throws otherwise. *)

Module Runtime.
Import JS.
Open Scope Z_scope.

Definition is_white_space (c : Ascii.ascii) : bool :=
  let n := Z.of_N (Ascii.N_of_ascii c) in
  (n =? 32) || ((9 <=? n) && (n <=? 13)).

Definition digit (radix : Z) (c : Ascii.ascii) : option Z :=
  let n := Z.of_N (Ascii.N_of_ascii c) in
  let d := if (48 <=? n) && (n <=? 57) then Some (n - 48)
           else if (97 <=? n) && (n <=? 122) then Some (n - 87)
           else if (65 <=? n) && (n <=? 90) then Some (n - 55)
           else None in
  match d with
  | Some v => if v <? radix then Some v else None
  | None => None
  end.

(** The value of the longest prefix of [s] made of digits; [acc] is the
    value read so far, [None] before the first digit. *)
Fixpoint digits (radix : Z) (acc : option Z) (s : string) : option Z :=
  match s with
  | EmptyString => acc
  | String c rest =>
      match digit radix c with
      | Some d => digits radix (Some (radix * default 0 acc + d)) rest
      | None => acc
      end
  end.

Fixpoint trim_start (s : string) : string :=
  match s with
  | String c rest => if is_white_space c then trim_start rest else s
  | EmptyString => s
  end.

Definition parseInt (s : string) : number :=
  let s := trim_start s in
  let '(sign, s) :=
    match s with
    | String "-"%char rest => (-1, rest)
    | String "+"%char rest => (1, rest)
    | _ => (1, s)
    end in
  let '(radix, s) :=
    match s with
    | String "0"%char (String "x"%char rest) => (16, rest)
    | String "0"%char (String "X"%char rest) => (16, rest)
    | _ => (10, s)
    end in
  match digits radix None s with
  | Some n => Num (sign * n)
  | None => NaN
  end.

(** All of [s] is decimal digits, and there is at least one. *)
Fixpoint numeral (acc : option Z) (s : string) : option Z :=
  match s with
  | EmptyString => acc
  | String c rest =>
      match digit 10 c with
      | Some d => numeral (Some (10 * default 0 acc + d)) rest
      | None => None
      end
  end.

Definition toBN (s : string) : completion BN :=
  match numeral None s with
  | Some n => Normal n
  | None => Throw (mkError "invalid number value")
  end.

Definition builtins : Builtins :=
  {| JS.parseInt := parseInt; JS.toBN := toBN |}.

(** Sample data: a wallet of three owners holding one transaction,
    pending in [wallet] and executed with two confirmations in
    [wallet_executed]; the viewer of both is owner ["0xA"]. *)
Definition pending_tx : MultiSigWallet.Transaction :=
  {| MultiSigWallet.txIndex := Num 0; MultiSigWallet.to := "0xD";
     MultiSigWallet.value := 0; MultiSigWallet.data := "0x0123";
     MultiSigWallet.executed := false;
     MultiSigWallet.numConfirmations := Num 0;
     MultiSigWallet.isConfirmedByCurrentAccount := false |}.

Definition executed_tx : MultiSigWallet.Transaction :=
  {| MultiSigWallet.txIndex := Num 0; MultiSigWallet.to := "0xD";
     MultiSigWallet.value := 0; MultiSigWallet.data := "0x0123";
     MultiSigWallet.executed := true;
     MultiSigWallet.numConfirmations := Num 2;
     MultiSigWallet.isConfirmedByCurrentAccount := true |}.

Definition wallet_of (txs : list MultiSigWallet.Transaction) : MultiSigWallet.State :=
  {| MultiSigWallet.address := "0xW"; MultiSigWallet.balance := "0";
     MultiSigWallet.owners := ["0xA"; "0xB"; "0xC"]%string;
     MultiSigWallet.numConfirmationsRequired := Num 2;
     MultiSigWallet.transactionCount := Num (Z.of_nat (length txs));
     MultiSigWallet.transactions := txs |}.

Definition wallet : MultiSigWallet.State := wallet_of [pending_tx].
Definition wallet_executed : MultiSigWallet.State := wallet_of [executed_tx].

(** A callback that returns normally, as the ones in contexts/Web3.tsx. *)
Definition quiet_callback {V : Type} (c : @Web3Api.Call V) : completion unit :=
  Normal ().

(** A provider with one account whose user approves the connection,
    and one whose user rejects it. *)
Definition provider_approved : Web3Api.Ethereum :=
  {| Web3Api.enable := Normal ();
     Web3Api.getAccounts := Normal ["0xA"%string] |}.

Definition provider_rejected : Web3Api.Ethereum :=
  {| Web3Api.enable := Throw (mkError "User rejected the request.");
     Web3Api.getAccounts := Normal ["0xA"%string] |}.

End Runtime.

(** ** contexts/MultiSigWallet.tsx: the rest of [Updater] *)

Module MultiSigWalletUpdater.
Import JS MultiSigWallet.

(** The first effect of [Updater]: [get(web3, account)] runs only when
    [web3] is set; [result] is how the promise of [getMultiSigWallet]
    settles.  A rejection is caught and logged, nothing is dispatched. *)
Definition Updater_get (web3 : option Web3Api.Web3) (result : completion State)
    : option Action :=
  match web3 with
  | None => None
  | Some _ =>
      match result with
      | Normal data => Some (SET data)
      | Throw _ => None
      end
  end.

(** The guard of the second effect, [if (web3 && state.address)]: the
    empty string is falsy. *)
Definition Updater_subscribes (web3 : option Web3Api.Web3) (state : State) : bool :=
  match web3 with
  | None => false
  | Some _ => negb (String.eqb (address state) "")
  end.

(** The state after the first effect has run. *)
Definition bootstrap `{Builtins} (web3 : option Web3Api.Web3)
    (result : completion State) (state : State) : completion State :=
  match Updater_get web3 result with
  | Some action => reducer state action
  | None => Normal state
  end.

(** How many notifications of a sequence are submissions. *)
Fixpoint submissions (logs : list Log) : nat :=
  match logs with
  | [] => 0
  | SubmitTransaction _ _ _ _ _ :: rest => S (submissions rest)
  | _ :: rest => submissions rest
  end.

(** The total carried by the last Deposit of a sequence, [b] when it has
    none. *)
Fixpoint last_balance (b : string) (logs : list Log) : string :=
  match logs with
  | [] => b
  | Deposit _ _ total :: rest => last_balance total rest
  | _ :: rest => last_balance b rest
  end.

(** [tx'] is a later version of the record [tx]: what identifies the
    transaction is the same, and an executed one is still executed. *)
Definition later_version (tx tx' : Transaction) : Prop :=
  txIndex tx' = txIndex tx
  /\ to tx' = to tx
  /\ value tx' = value tx
  /\ data tx' = data tx
  /\ (executed tx = true -> executed tx' = true).

(** The local transaction count is the number of local records. *)
Definition counts_records (state : State) : Prop :=
  transactionCount state = Num (Z.of_nat (length (transactions state))).

(** What a Confirm, Revoke or Execute notification does to a record it
    matches. *)
Definition addressed_update (account : string) (log : Log) (tx : Transaction)
    : Transaction :=
  match log with
  | ConfirmTransaction o _ => updatedTx account o None (Some true) tx
  | RevokeConfirmation o _ => updatedTx account o None (Some false) tx
  | ExecuteTransaction o _ => updatedTx account o (Some true) None tx
  | _ => tx
  end.

End MultiSigWalletUpdater.

(** ** contexts/MultiSigWallet.tsx: two viewers of one wallet *)

Module MultiSigWalletViewer.
Import JS MultiSigWallet.

(** Two records that differ at most in [isConfirmedByCurrentAccount]. *)
Definition same_but_flag (tx1 tx2 : Transaction) : Prop :=
  txIndex tx1 = txIndex tx2
  /\ to tx1 = to tx2
  /\ value tx1 = value tx2
  /\ data tx1 = data tx2
  /\ executed tx1 = executed tx2
  /\ numConfirmations tx1 = numConfirmations tx2.

(** Two projection states that differ at most in those flags. *)
Definition agree_but_flags (s1 s2 : State) : Prop :=
  address s1 = address s2
  /\ balance s1 = balance s2
  /\ owners s1 = owners s2
  /\ numConfirmationsRequired s1 = numConfirmationsRequired s2
  /\ transactionCount s1 = transactionCount s2
  /\ Forall2 same_but_flag (transactions s1) (transactions s2).

(** Two outcomes of a fold or replay: the same error, or two states that
    differ at most in the flags. *)
Definition outcomes_agree (r1 r2 : completion State) : Prop :=
  match r1, r2 with
  | Normal s1, Normal s2 => agree_but_flags s1 s2
  | Throw e1, Throw e2 => e1 = e2
  | _, _ => False
  end.

(** The notification's owner is both viewers or neither, as far as the
    reducer asks: [data.owner === data.account] is evaluated for Confirm
    and Revoke only. *)
Definition names_alike (a1 a2 : string) (log : Log) : Prop :=
  match log with
  | ConfirmTransaction o _ | RevokeConfirmation o _ =>
      String.eqb o a1 = String.eqb o a2
  | _ => True
  end.

End MultiSigWalletViewer.

(** ** contexts/Web3.tsx *)

Module Web3Context.
Import JS.

Record State : Type := mkState {
  account : string;
  web3 : option Web3Api.Web3;     (* [None] is [null] *)
  netId : number;
}.

Definition INITIAL_STATE : State :=
  {| account := ""; web3 := None; netId := Num 0 |}.

(** [web3?] of [UpdateAccount] is [None] when absent. *)
Inductive Action : Type :=
| UPDATE_ACCOUNT (account : string) (web3 : option Web3Api.Web3)
| UPDATE_NET_ID (netId : number).

Definition reducer (state : State) (action : Action) : State :=
  match action with
  | UPDATE_ACCOUNT account' web3' =>
      (* [action.web3 || state.web3]: an object is truthy *)
      let web3'' := match web3' with
                    | Some w => Some w
                    | None => web3 state
                    end in
      {| account := account'; web3 := web3''; netId := netId state |}
  | UPDATE_NET_ID netId' =>
      {| account := account state; web3 := web3 state; netId := netId' |}
  end.

(** What the callbacks of [Updater] do besides returning. *)
Inductive Effect : Type :=
| console_error (error : Error)
| location_reload
| updateNetId (netId : number).

(** [if (error) console.error(error)]: an [Error] object is truthy. *)
Definition log_error (error : option Error) : list Effect :=
  match error with
  | Some e => [console_error e]
  | None => []
  end.

(** The callback given to [subscribeToAccount], closed over [state].  Its
    second argument is a string, [undefined] ([Some None]) or [null]
    ([None]); [null !== undefined] and [null !== state.account] both hold. *)
Definition Updater_account_callback (state : State)
    (c : @Web3Api.Call (option string)) : list Effect :=
  let '(error, account') := c in
  let not_undefined := match account' with
                       | Some None => false
                       | _ => true
                       end in
  let not_current := match account' with
                     | Some (Some a) => negb (String.eqb a (account state))
                     | _ => true
                     end in
  log_error error
  ++ (if not_undefined && not_current then [location_reload] else []).

(** [if (netId)] on [number | null]: [0] and [NaN] are falsy. *)
Definition truthy (n : number) : bool :=
  match n with
  | NaN => false
  | Num z => negb (z =? 0)%Z
  end.

(** The callback given to [subscribeToNetId], closed over [state]. *)
Definition Updater_netId_callback (state : State)
    (c : @Web3Api.Call number) : list Effect :=
  let '(error, netId') := c in
  log_error error
  ++ match netId' with
     | Some n =>
         if truthy n then
           if strict_eq (netId state) (Num 0) then [updateNetId n]
           else if negb (strict_eq n (netId state)) then [location_reload]
           else []
         else []
     | None => []
     end.

(** Both callbacks return normally: logging, reloading and dispatching do
    not throw. *)
Definition returns {V : Type} (c : @Web3Api.Call V) : completion unit := Normal ().

(** Everything that happens when a query of the account subscription
    settles as [r]: the handler of [subscribeToAccount] resumes and calls
    the callback of [Updater]; effects in the order they occur. *)
Definition account_poll (state : State) (r : completion (list string)) : list Effect :=
  mjoin (Updater_account_callback state
           <$> reverse (Web3Api.subscribeToAccount_handler returns r)).

(** The same for the network subscription. *)
Definition netId_poll (state : State) (r : completion number) : list Effect :=
  mjoin (Updater_netId_callback state
           <$> reverse (Web3Api.subscribeToNetId_handler returns r)).

(** The state after the effects have been carried out, as long as the
    page is not reloaded: [updateNetId] dispatches [UPDATE_NET_ID]. *)
Fixpoint dispatched (state : State) (effects : list Effect) : State :=
  match effects with
  | [] => state
  | updateNetId n :: rest => dispatched (reducer state (UPDATE_NET_ID n)) rest
  | _ :: rest => dispatched state rest
  end.

End Web3Context.

(** ** api/web3.ts: counting the timer *)

Module Web3ApiCount.
Import JS Web3Api.

(** How many times the interval fired in a sequence of events. *)
Fixpoint ticks {R : Type} (evs : list (@Event R)) : nat :=
  match evs with
  | [] => 0
  | Tick :: rest => S (ticks rest)
  | _ :: rest => ticks rest
  end.

End Web3ApiCount.

(** ** api/web3.ts: callbacks that act on their subscription

    The callback given to [subscribeToAccount] or [subscribeToNetId] is
    any JavaScript function: it has state of its own, it may call the
    unsubscribe function it was handed back, and it returns or throws.
    This is the subscription with such a callback, and with a record of
    what happens in which order. *)

Module Web3ApiReentrant.
Import JS Web3Api.

Section Subscriptions.
(** [R]: what the awaited query resolves to; [V]: what the callback
    receives for it; [St]: what the callback closes over. *)
Context {R V St : Type}.

(** What one invocation of the callback does to the subscription:
    whether it calls the unsubscribe function, and how it completes. *)
Record Reaction : Type := mkReaction {
  unsubscribes : bool;
  completes : completion unit;
}.

Definition Callback : Type := St -> @Call V -> St * Reaction.

(** What an observer of the subscription sees. *)
Inductive Observation : Type :=
| Called (c : @Call V)     (* [callback] is invoked with [c] *)
| Unsubscribed.            (* the unsubscribe function returns *)

Record Machine : Type := mkMachine {
  timer : bool;                (* the timer [id] has not been cleared *)
  awaiting : nat;              (* handlers suspended at their [await] *)
  memory : St;                 (* the state of the callback *)
  trace : list Observation;    (* what happened, latest first *)
}.

(** [setInterval(handler, 1000)] has just been called. *)
Definition subscribed (memory0 : St) : Machine :=
  {| timer := true; awaiting := 0; memory := memory0; trace := [] |}.

(** The returned function: [clearInterval(id)]. *)
Definition unsubscribe (m : Machine) : Machine :=
  {| timer := false; awaiting := awaiting m; memory := memory m;
     trace := Unsubscribed :: trace m |}.

(** [callback(error, value)]: the call is observed, the callback may
    unsubscribe while it runs, and it returns or throws. *)
Definition invoke (callback : Callback) (c : @Call V) (m : Machine)
    : Machine * completion unit :=
  let '(memory', reaction) := callback (memory m) c in
  let m1 := {| timer := timer m; awaiting := awaiting m; memory := memory';
               trace := Called c :: trace m |} in
  (if unsubscribes reaction then unsubscribe m1 else m1, completes reaction).

(** One step of the runtime; [None] when the event cannot happen in [m].
    [resume r] is a suspended handler running to its end once its query
    has settled as [r]. *)
Definition step (resume : completion R -> Machine -> Machine)
    (m : Machine) (ev : @Event R) : option Machine :=
  match ev with
  | Tick =>
      if timer m
      then Some {| timer := true; awaiting := S (awaiting m);
                   memory := memory m; trace := trace m |}
      else None
  | Settle r =>
      match awaiting m with
      | O => None
      | S n => Some (resume r {| timer := timer m; awaiting := n;
                                 memory := memory m; trace := trace m |})
      end
  | Unsubscribe => Some (unsubscribe m)
  end.

Fixpoint run (resume : completion R -> Machine -> Machine)
    (m : Machine) (evs : list (@Event R)) : option Machine :=
  match evs with
  | [] => Some m
  | ev :: rest => m' ← step resume m ev; run resume m' rest
  end.

(** How often the callback was invoked in a stretch of a trace. *)
Fixpoint called (t : list Observation) : nat :=
  match t with
  | [] => 0
  | Called _ :: earlier => S (called earlier)
  | Unsubscribed :: earlier => called earlier
  end.

Fixpoint unsubscribed_in (t : list Observation) : bool :=
  match t with
  | [] => false
  | Unsubscribed :: _ => true
  | Called _ :: earlier => unsubscribed_in earlier
  end.

(** What happened after the unsubscribe function first returned in a
    stretch of a trace (latest first); nothing if it did not. *)
Fixpoint since_unsubscribed (t : list Observation) : list Observation :=
  match t with
  | [] => []
  | o :: earlier =>
      if unsubscribed_in earlier then o :: since_unsubscribed earlier else []
  end.

(** A run in which the timer is cleared in the step [ev], taking [m0]
    to [m1], and that goes on with the events [post] to [m2].  After the
    unsubscribe function has returned in that step, the step itself
    invokes the callback at most once more, and not at all when the
    function was called from outside a handler.  From then on the timer
    stays cleared and does not fire, no handler is added, and the callback
    is invoked only by handlers that were suspended, at most twice each;
    so it is not invoked at all when the function was called from outside
    a handler and none was suspended. *)
Definition cancelled_run (m0 m1 m2 : Machine) (ev : @Event R)
    (post : list (@Event R)) : Prop :=
  exists during after,
    trace m1 = during ++ trace m0
    /\ trace m2 = after ++ trace m1
    /\ called (since_unsubscribed during) <= 1
    /\ (ev = Unsubscribe -> during = [Unsubscribed])
    /\ timer m2 = false
    /\ Forall (fun ev' => ev' <> Tick) post
    /\ awaiting m2 <= awaiting m1
    /\ called after <= 2 * (awaiting m1 - awaiting m2)
    /\ (ev = Unsubscribe -> awaiting m1 = 0 -> called (after ++ during) = 0).

End Subscriptions.

(** The handler of [subscribeToAccount] from its [await] on: the rest of
    the [try] block, [callback(null, accounts[0])], and the [catch] block,
    [callback(error, null)], when the query rejected or [callback] threw.
    What the second invocation throws is not caught. *)
Definition subscribeToAccount_resume {St : Type}
    (callback : @Callback (option string) St)
    (r : completion (list string)) (m : @Machine (option string) St)
    : @Machine (option string) St :=
  match r with
  | Normal accounts =>
      let '(m1, result) := invoke callback (None, Some (accounts !! 0%nat)) m in
      match result with
      | Normal _ => m1
      | Throw error => (invoke callback (Some error, None) m1).1
      end
  | Throw error => (invoke callback (Some error, None) m).1
  end.

(** The handler of [subscribeToNetId]. *)
Definition subscribeToNetId_resume {St : Type}
    (callback : @Callback number St)
    (r : completion number) (m : @Machine number St) : @Machine number St :=
  match r with
  | Normal netId =>
      let '(m1, result) := invoke callback (None, Some netId) m in
      match result with
      | Normal _ => m1
      | Throw error => (invoke callback (Some error, None) m1).1
      end
  | Throw error => (invoke callback (Some error, None) m).1
  end.

(** A callback without state that does not touch the subscription, as
    the plain model of the subscriptions takes it. *)
Definition plain {V : Type} (callback : @Call V -> completion unit)
    : @Callback V unit :=
  fun _ c => ((), {| unsubscribes := false; completes := callback c |}).

(** The invocations in a trace, latest first. *)
Fixpoint calls_of {V : Type} (t : list (@Observation V)) : list (@Call V) :=
  match t with
  | [] => []
  | Called c :: earlier => c :: calls_of earlier
  | Unsubscribed :: earlier => calls_of earlier
  end.

(** A state of the plain model and one of this model that show the same:
    the timer, the suspended handlers, the invocations made. *)
Definition in_step {V : Type} (s : @Subscription V) (m : @Machine V unit) : Prop :=
  timer m = interval s
  /\ awaiting m = pending s
  /\ calls_of (trace m) = calls s.

End Web3ApiReentrant.

(** ** MEV-contract-uttamsingh/FrontRunMe.sol *)

Module FrontRunMe.
Open Scope Z_scope.

(** [address] and [bytes32] values as integers. *)
Definition address : Type := Z.
Definition bytes32 : Type := Z.

(** The contract: its one state variable and its Ether balance. *)
Record Contract : Type := mkContract {
  addressToSecret : gmap Z Z;
  balance : Z;
}.

(** [msg.sender] and [msg.value] of a call. *)
Record Msg : Type := mkMsg { sender : address; value : Z }.

(** A call either succeeds with a result or reverts, leaving the state
    as it was before the call. *)
Inductive outcome (A : Type) : Type :=
| Success (a : A)
| Revert (reason : string).
Arguments Success {A} a.
Arguments Revert {A} reason.

(** Reading [addressToSecret[user]]: a key never written reads as zero. *)
Definition secret_of (c : Contract) (user : address) : bytes32 :=
  default 0 (addressToSecret c !! user).

(** [deposit] is payable: the value sent is added to the balance. *)
Definition deposit (c : Contract) (msg : Msg) (_secret : bytes32) : outcome Contract :=
  Success {| addressToSecret := <[sender msg := _secret]> (addressToSecret c);
             balance := balance c + value msg |}.

(** [withdraw] is not payable, so a call carrying value reverts.
    [call recipient amount c'] is the low-level call
    [msg.sender.call{value: amount}("")] made while the contract is in
    state [c'], the amount already debited: [None] when it fails, and
    otherwise the state of the contract when it returns, which differs
    from [c'] only if the recipient called back into the contract.
    On success the result carries the amount paid out. *)
Definition withdraw (call : address -> Z -> Contract -> option Contract)
    (c : Contract) (msg : Msg) (_user : address) (_secret : bytes32)
    : outcome (Contract * Z) :=
  if negb (value msg =? 0) then Revert ""
  else if negb (secret_of c _user =? _secret) then Revert "Wrong Password!"
  else
    let amount := balance c in
    match call (sender msg) amount
               {| addressToSecret := addressToSecret c; balance := 0 |} with
    | Some c' => Success (c', amount)
    | None => Revert "Failed to send Ether"
    end.

(** A recipient that accepts the Ether and does nothing else, as an
    externally owned account does. *)
Definition accepts (recipient : address) (amount : Z) (c : Contract)
    : option Contract := Some c.

(** A recipient whose code refuses the Ether. *)
Definition refuses (recipient : address) (amount : Z) (c : Contract)
    : option Contract := None.

End FrontRunMe.

(** ** More sample data *)

Module Samples.
Import JS.

(** Notifications that reach the projection [Runtime.wallet]: a deposit,
    a second submission, a confirmation and the execution of the first
    transaction, another deposit. *)
Definition history : list MultiSigWallet.Log :=
  [MultiSigWallet.Deposit "0xS" "5" "5";
   MultiSigWallet.SubmitTransaction "0xA" "1" "0xE" "7" "0x";
   MultiSigWallet.ConfirmTransaction "0xB" "0";
   MultiSigWallet.ExecuteTransaction "0xB" "0";
   MultiSigWallet.Deposit "0xS" "4" "9"].

Definition second_tx : MultiSigWallet.Transaction :=
  {| MultiSigWallet.txIndex := Num 1; MultiSigWallet.to := "0xE";
     MultiSigWallet.value := 7%Z; MultiSigWallet.data := "0x";
     MultiSigWallet.executed := false;
     MultiSigWallet.numConfirmations := Num 0;
     MultiSigWallet.isConfirmedByCurrentAccount := false |}.

Definition first_tx_executed : MultiSigWallet.Transaction :=
  {| MultiSigWallet.txIndex := Num 0; MultiSigWallet.to := "0xD";
     MultiSigWallet.value := 0%Z; MultiSigWallet.data := "0x0123";
     MultiSigWallet.executed := true;
     MultiSigWallet.numConfirmations := Num 1;
     MultiSigWallet.isConfirmedByCurrentAccount := false |}.

(** [Runtime.wallet] after [history], for the viewer ["0xA"]. *)
Definition wallet_after_history : MultiSigWallet.State :=
  {| MultiSigWallet.address := "0xW"; MultiSigWallet.balance := "9";
     MultiSigWallet.owners := ["0xA"; "0xB"; "0xC"]%string;
     MultiSigWallet.numConfirmationsRequired := Num 2;
     MultiSigWallet.transactionCount := Num 2;
     MultiSigWallet.transactions := [second_tx; first_tx_executed] |}.

(** A record submitted with an index field that did not parse. *)
Definition nan_tx : MultiSigWallet.Transaction :=
  {| MultiSigWallet.txIndex := NaN; MultiSigWallet.to := "0xD";
     MultiSigWallet.value := 0%Z; MultiSigWallet.data := "0x";
     MultiSigWallet.executed := false;
     MultiSigWallet.numConfirmations := Num 0;
     MultiSigWallet.isConfirmedByCurrentAccount := false |}.

(** A connection state with an instance, before the network is known. *)
Definition connected : Web3Context.State :=
  {| Web3Context.account := "0xA";
     Web3Context.web3 := Some (Web3Api.mkWeb3 Runtime.provider_approved);
     Web3Context.netId := Num 0 |}.

(** A FrontRunMe contract holding 10 wei and the secret 1234 of address 1. *)
Definition vault : FrontRunMe.Contract :=
  {| FrontRunMe.addressToSecret := {[ 1%Z := 1234%Z ]};
     FrontRunMe.balance := 10%Z |}.

(** A callback that, handed a value, calls the unsubscribe function and
    then throws; handed an error, it returns. *)
Definition stop_and_throw {V : Type} : @Web3ApiReentrant.Callback V unit :=
  fun _ c =>
    match c with
    | (None, _) =>
        ((), {| Web3ApiReentrant.unsubscribes := true;
                Web3ApiReentrant.completes := Throw (mkError "stop") |})
    | (Some _, _) =>
        ((), {| Web3ApiReentrant.unsubscribes := false;
                Web3ApiReentrant.completes := Normal () |})
    end.

(** A callback that only returns. *)
Definition quiet {V : Type} : @Web3ApiReentrant.Callback V unit :=
  Web3ApiReentrant.plain Runtime.quiet_callback.

End Samples.

(** * Properties of the projection fold *)

Module MultiSigWalletSpec.
Import JS MultiSigWallet MultiSigWalletViewer.

Section Fold.
Context `{Builtins}.

Lemma strict_eq_eq a b : strict_eq a b = true -> a = b.
Proof.
  destruct a as [|x], b as [|y]; simpl; try discriminate.
  intros E. apply Z.eqb_eq in E. by subst.
Qed.

Lemma add_sub_1 n : sub (add n (Num 1)) (Num 1) = n.
Proof. destruct n as [|z]; simpl; [done|]. f_equal. lia. Qed.

Lemma state_eta s :
  {| address := address s; balance := balance s; owners := owners s;
     numConfirmationsRequired := numConfirmationsRequired s;
     transactionCount := transactionCount s;
     transactions := transactions s |} = s.
Proof. by destruct s. Qed.

(** [UPDATE_TX] never throws, keeps every record at its position and
    rewrites exactly those whose index matches. *)
Lemma reducer_UPDATE_TX s a i o e c :
  exists s', reducer s (UPDATE_TX a i o e c) = Normal s'
    /\ address s' = address s /\ balance s' = balance s
    /\ owners s' = owners s
    /\ numConfirmationsRequired s' = numConfirmationsRequired s
    /\ transactionCount s' = transactionCount s
    /\ forall k : nat, transactions s' !! k =
         (fun tx => if strict_eq (txIndex tx) (parseInt i)
                    then updatedTx a o e c tx else tx) <$> transactions s !! k.
Proof.
  eexists. split; [reflexivity|]. simpl.
  repeat split. intros k. apply list_lookup_fmap.
Qed.

(** When no record matches, the mapped list is the list itself. *)
Lemma fmap_no_record (f : Transaction -> Transaction) idx (txs : list Transaction) :
  Forall (fun tx => strict_eq (txIndex tx) idx = false) txs ->
  (fun tx => if strict_eq (txIndex tx) idx then f tx else tx) <$> txs = txs.
Proof.
  induction 1 as [|tx txs Htx _ IH]; [done|].
  rewrite fmap_cons, Htx. by f_equal.
Qed.

(** C2, as the code has it: a Confirm, Revoke or Execute notification
    whose index matches no local record is skipped.  The fold completes
    normally and returns the state it was given; nothing is thrown. *)
Theorem C2_missing_record_skipped account state o i log :
  addressed_to o i log ->
  no_record i state ->
  fold account state log = Normal state.
Proof.
  intros Hlog Hno. unfold no_record in Hno.
  destruct Hlog; unfold fold; simpl;
    rewrite (fmap_no_record _ _ _ Hno); by rewrite state_eta.
Qed.

(** C4: folding a Deposit notification sets the balance to the total the
    notification carries, whatever the balance was: two projections that
    differ in their balance agree on it afterwards, and nothing else of
    the state changes. *)
Theorem C4_deposit_replaces_balance account state sender amount total :
  exists state',
    fold account state (Deposit sender amount total) = Normal state'
    /\ balance state' = total
    /\ (forall other,
          exists other',
            fold account other (Deposit sender amount total) = Normal other'
            /\ balance other' = balance state')
    /\ address state' = address state
    /\ owners state' = owners state
    /\ numConfirmationsRequired state' = numConfirmationsRequired state
    /\ transactionCount state' = transactionCount state
    /\ transactions state' = transactions state.
Proof.
  eexists. split; [reflexivity|]. simpl. repeat split.
  intros other. eexists. split; reflexivity.
Qed.

(** C5: folding a Submit notification whose value [toBN] accepts puts
    one new record in front of the local list, with the index
    [parseInt] reads from the notification, no confirmations, not
    executed, not confirmed by the viewer, and adds one to the
    transaction count. *)
Theorem C5_submit_prepends_record account state owner i dest amount payload v :
  toBN amount = Normal v ->
  exists state',
    fold account state (SubmitTransaction owner i dest amount payload) = Normal state'
    /\ transactions state' =
         {| txIndex := parseInt i; to := dest; value := v; data := payload;
            executed := false; numConfirmations := Num 0;
            isConfirmedByCurrentAccount := false |} :: transactions state
    /\ length (transactions state') = S (length (transactions state))
    /\ transactionCount state' = add (transactionCount state) (Num 1).
Proof.
  intros Hv. unfold fold; simpl. rewrite Hv. simpl.
  eexists. split; [reflexivity|]. simpl. by repeat split.
Qed.

(** A record whose index matches is replaced, at its position, by its
    updated copy. *)
Lemma reducer_UPDATE_TX_match s a i o e c (k : nat) tx :
  transactions s !! k = Some tx ->
  strict_eq (txIndex tx) (parseInt i) = true ->
  exists s', reducer s (UPDATE_TX a i o e c) = Normal s'
    /\ transactions s' !! k = Some (updatedTx a o e c tx).
Proof.
  intros Hk Hi.
  destruct (reducer_UPDATE_TX s a i o e c) as (s' & Hs' & _ & _ & _ & _ & _ & Htx).
  exists s'. split; [done|]. by rewrite Htx, Hk; simpl; rewrite Hi.
Qed.

Lemma updatedTx_txIndex a o e c tx :
  txIndex (updatedTx a o e c tx) = txIndex tx.
Proof.
  unfold updatedTx.
  destruct e as [[|]|], c as [[|]|]; simpl; try done;
    by destruct (String.eqb o a).
Qed.

(** What a Confirm notification does to the record it is addressed to:
    one more confirmation, and the viewer's flag overwritten with
    "the confirming owner is the viewer". *)
Lemma confirm_effect account state o i (k : nat) tx :
  transactions state !! k = Some tx ->
  strict_eq (txIndex tx) (parseInt i) = true ->
  exists state' tx',
    fold account state (ConfirmTransaction o i) = Normal state'
    /\ transactions state' !! k = Some tx'
    /\ numConfirmations tx' = add (numConfirmations tx) (Num 1)
    /\ isConfirmedByCurrentAccount tx' = String.eqb o account
    /\ executed tx' = executed tx.
Proof.
  intros Hk Hi.
  destruct (reducer_UPDATE_TX_match state account i o None (Some true) k tx Hk Hi)
    as (state' & Hfold & Hk').
  by exists state', (updatedTx account o None (Some true) tx).
Qed.

(** C3, as the code has it: a record with [executed = true] stays
    executed under every Confirm, Revoke or Execute notification
    addressed to it, and an Execute notification leaves it as it is.
    The fold has no guard on [executed]: a Confirm still adds one to
    its confirmation count and a Revoke still takes one away. *)
Theorem C3_executed_stays_executed account state o i log (k : nat) tx :
  addressed_to o i log ->
  transactions state !! k = Some tx ->
  strict_eq (txIndex tx) (parseInt i) = true ->
  executed tx = true ->
  exists state' tx',
    fold account state log = Normal state'
    /\ transactions state' !! k = Some tx'
    /\ executed tx' = true
    /\ (log = ExecuteTransaction o i -> tx' = tx)
    /\ (log = ConfirmTransaction o i ->
          numConfirmations tx' = add (numConfirmations tx) (Num 1))
    /\ (log = RevokeConfirmation o i ->
          numConfirmations tx' = sub (numConfirmations tx) (Num 1)).
Proof.
  intros Hlog Hk Hi Hex. unfold fold.
  destruct Hlog; simpl.
  - destruct (reducer_UPDATE_TX_match state account i o None (Some true) k tx Hk Hi)
      as (state' & Hfold & Hk').
    exists state', (updatedTx account o None (Some true) tx).
    repeat split; try done.
  - destruct (reducer_UPDATE_TX_match state account i o None (Some false) k tx Hk Hi)
      as (state' & Hfold & Hk').
    exists state', (updatedTx account o None (Some false) tx).
    repeat split; try done; unfold updatedTx; by destruct (String.eqb o account).
  - destruct (reducer_UPDATE_TX_match state account i o (Some true) None k tx Hk Hi)
      as (state' & Hfold & Hk').
    exists state', (updatedTx account o (Some true) None tx).
    repeat split; try done.
    intros _. destruct tx; simpl in *. by subst.
Qed.

(** C6: a Confirm notification followed by a Revoke notification from the
    same owner, both addressed to a record the projection holds, brings
    the record's confirmation count back to what it was, and leaves
    [isConfirmedByCurrentAccount] false for the viewer who is that
    owner.  [executed] is not touched. *)
Theorem C6_confirm_then_revoke account state o i (k : nat) tx :
  transactions state !! k = Some tx ->
  strict_eq (txIndex tx) (parseInt i) = true ->
  executed tx = false ->
  exists state1 state2 tx2,
    fold account state (ConfirmTransaction o i) = Normal state1
    /\ fold account state1 (RevokeConfirmation o i) = Normal state2
    /\ transactions state2 !! k = Some tx2
    /\ numConfirmations tx2 = numConfirmations tx
    /\ (account = o -> isConfirmedByCurrentAccount tx2 = false)
    /\ executed tx2 = false.
Proof.
  intros Hk Hi Hex. unfold fold; simpl.
  destruct (reducer_UPDATE_TX_match state account i o None (Some true) k tx Hk Hi)
    as (state1 & Hfold1 & Hk1).
  assert (Hi1 : strict_eq (txIndex (updatedTx account o None (Some true) tx))
                  (parseInt i) = true)
    by (by rewrite updatedTx_txIndex).
  destruct (reducer_UPDATE_TX_match state1 account i o None (Some false) k _ Hk1 Hi1)
    as (state2 & Hfold2 & Hk2).
  exists state1, state2,
    (updatedTx account o None (Some false) (updatedTx account o None (Some true) tx)).
  repeat split; try done.
  - unfold updatedTx; simpl.
    destruct (String.eqb o account); simpl; apply add_sub_1.
  - intros ->. unfold updatedTx; simpl. by rewrite String.eqb_refl.
  - unfold updatedTx; simpl. by destruct (String.eqb o account).
Qed.

(** C9: the Revoke fold takes one confirmation away without looking at
    the count.  On a pending record with no confirmations the count
    becomes -1. *)
Theorem C9_revoke_below_zero account state o i (k : nat) tx :
  transactions state !! k = Some tx ->
  strict_eq (txIndex tx) (parseInt i) = true ->
  executed tx = false ->
  numConfirmations tx = Num 0 ->
  exists state' tx',
    fold account state (RevokeConfirmation o i) = Normal state'
    /\ transactions state' !! k = Some tx'
    /\ numConfirmations tx' = Num (-1).
Proof.
  intros Hk Hi _ H0. unfold fold; simpl.
  destruct (reducer_UPDATE_TX_match state account i o None (Some false) k tx Hk Hi)
    as (state' & Hfold & Hk').
  exists state', (updatedTx account o None (Some false) tx).
  repeat split; try done.
  unfold updatedTx; simpl. rewrite H0.
  by destruct (String.eqb o account).
Qed.

(** The assignments of [UPDATE_TX] treat two copies of a record that
    differ at most in the viewer's flag alike, whoever the viewers are. *)
Lemma updatedTx_same_but_flag a1 a2 o e c tx1 tx2 :
  same_but_flag tx1 tx2 ->
  same_but_flag (updatedTx a1 o e c tx1) (updatedTx a2 o e c tx2).
Proof.
  intros (Hi & Ht & Hv & Hd & He & Hn). unfold updatedTx.
  destruct e as [[|]|], c as [[|]|]; simpl;
    try destruct (String.eqb o a1); try destruct (String.eqb o a2);
    repeat split; simpl; congruence.
Qed.

Lemma agree_but_flags_refl s : agree_but_flags s s.
Proof.
  repeat split. apply Forall2_same_length_lookup. split; [done|].
  intros k tx1 tx2 H1 H2. rewrite H1 in H2. injection H2 as <-. by repeat split.
Qed.

(** One notification, two viewers: the same outcome, up to the flags. *)
Lemma fold_agree a1 a2 s1 s2 log :
  agree_but_flags s1 s2 ->
  outcomes_agree (fold a1 s1 log) (fold a2 s2 log).
Proof.
  intros (Ha & Hb & Ho & Hn & Hc & Htx).
  assert (Hupd : forall i o e c,
            Forall2 same_but_flag
              ((fun tx => if strict_eq (txIndex tx) (parseInt i)
                          then updatedTx a1 o e c tx else tx) <$> transactions s1)
              ((fun tx => if strict_eq (txIndex tx) (parseInt i)
                          then updatedTx a2 o e c tx else tx) <$> transactions s2)).
  { intros i o e c. apply Forall2_fmap.
    eapply Forall2_impl; [exact Htx|].
    intros tx1 tx2 Hsame. simpl.
    destruct Hsame as (Hi & Hrest). rewrite Hi.
    destruct (strict_eq _ _).
    - apply updatedTx_same_but_flag. by split.
    - by split. }
  unfold fold.
  destruct log as [sender amount total|owner i dest amount payload|o i|o i|o i|ev];
    simpl.
  - by repeat split.
  - destruct (toBN amount) as [v|e]; simpl; [|done].
    repeat split; simpl; try congruence.
    constructor; [by repeat split|done].
  - repeat split; simpl; try done. exact (Hupd i o None (Some true)).
  - repeat split; simpl; try done. exact (Hupd i o None (Some false)).
  - repeat split; simpl; try done. exact (Hupd i o (Some true) None).
  - by repeat split.
Qed.

Lemma replay_agree a1 a2 logs : forall s1 s2,
  agree_but_flags s1 s2 ->
  outcomes_agree (replay a1 s1 logs) (replay a2 s2 logs).
Proof.
  induction logs as [|log rest IH]; intros s1 s2 Hagree; simpl; [done|].
  pose proof (fold_agree a1 a2 s1 s2 log Hagree) as Hstep.
  destruct (fold a1 s1 log) as [s1'|e1], (fold a2 s2 log) as [s2'|e2];
    simpl in *; try done.
  by apply IH.
Qed.

(** A notification that names the two viewers alike is folded alike. *)
Lemma fold_alike a1 a2 s log :
  names_alike a1 a2 log -> fold a1 s log = fold a2 s log.
Proof.
  unfold fold.
  destruct log as [sender amount total|owner i dest amount payload|o i|o i|o i|ev];
    simpl; try done; intros Hname;
    do 2 f_equal; apply list_fmap_ext; intros k tx _;
    destruct (strict_eq _ _); try done; unfold updatedTx; simpl; by rewrite Hname.
Qed.

Lemma replay_alike a1 a2 logs : forall s,
  Forall (names_alike a1 a2) logs -> replay a1 s logs = replay a2 s logs.
Proof.
  induction logs as [|log rest IH]; intros s Hnames; simpl; [done|].
  apply Forall_cons in Hnames as [Hname Hrest].
  rewrite (fold_alike a1 a2 s log Hname).
  destruct (fold a2 s log) as [s'|e]; simpl; [by apply IH|done].
Qed.

(** C7, as the code has it: the outcome of a replay is a function of the
    snapshot, the sequence and the viewer identity, which the callback of
    [Updater] passes along with every Confirm and Revoke.  Two replays of
    one sequence from one snapshot, for any two viewers, end alike (the
    same error, or two states) and the two states agree on everything but
    the [isConfirmedByCurrentAccount] flags.  The states are equal when no
    Confirm or Revoke of the sequence names one viewer and not the other as
    its owner; so they are when the viewer is the same. *)
Theorem C7_replay_depends_on_viewer_only a1 a2 state logs :
  outcomes_agree (replay a1 state logs) (replay a2 state logs)
  /\ (Forall (names_alike a1 a2) logs ->
      replay a1 state logs = replay a2 state logs)
  /\ (a1 = a2 -> replay a1 state logs = replay a2 state logs).
Proof.
  split; [|split].
  - apply replay_agree, agree_but_flags_refl.
  - apply replay_alike.
  - intros ->. apply replay_alike, Forall_forall. intros log _.
    by destruct log.
Qed.

End Fold.
End MultiSigWalletSpec.

(** * Properties of the web3 helpers *)

Module Web3ApiSpec.
Import JS Web3Api.

(** C10, as the code has it: without an injected provider
    [unlockAccount] throws "Web3 not found".  With a provider it returns
    the first account, or the empty string when there is none, provided
    [ethereum.enable()] and [web3.eth.getAccounts()] both resolve; when
    either rejects, [unlockAccount] fails with that rejection.  It fails
    with "Web3 not found" only if there is no provider or the provider
    itself rejected with that error. *)
Theorem C10_unlockAccount ethereum :
  unlockAccount None = Throw (mkError "Web3 not found")
  /\ (forall accounts,
        enable ethereum = Normal () ->
        getAccounts ethereum = Normal accounts ->
        unlockAccount (Some ethereum)
          = Normal (mkUnlocked (mkWeb3 ethereum) (hd ""%string accounts)))
  /\ (forall e,
        enable ethereum = Throw e ->
        unlockAccount (Some ethereum) = Throw e)
  /\ (forall e,
        enable ethereum = Normal () ->
        getAccounts ethereum = Throw e ->
        unlockAccount (Some ethereum) = Throw e)
  /\ (unlockAccount (Some ethereum) = Throw (mkError "Web3 not found") ->
        enable ethereum = Throw (mkError "Web3 not found")
        \/ getAccounts ethereum = Throw (mkError "Web3 not found")).
Proof.
  unfold unlockAccount. simpl. repeat split.
  - intros accounts -> ->. simpl. do 2 f_equal.
    destruct accounts as [|a rest]; simpl; [done|].
    destruct (String.eqb a "") eqn:E; [|done].
    by apply String.eqb_eq in E.
  - by intros e ->.
  - by intros e -> ->.
  - destruct (enable ethereum) as [[]|e]; simpl;
      [|intros E; injection E as ->; by left].
    destruct (getAccounts ethereum) as [accounts|e]; simpl;
      [done|intros E; injection E as ->; by right].
Qed.

End Web3ApiSpec.

(** * The subscriptions after cancellation *)

Module Web3ApiReentrantSpec.
Import JS Web3Api Web3ApiReentrant.

Section Subscriptions.
Context {R V St : Type}.
Variable resume : completion R -> @Machine V St -> @Machine V St.

(** What a resumed handler does, whichever of the two it is. *)
Hypothesis resume_trace : forall r m,
  exists new,
    trace (resume r m) = new ++ trace m
    /\ awaiting (resume r m) = awaiting m
    /\ called new <= 2
    /\ called (since_unsubscribed new) <= 1
    /\ (timer m = false -> timer (resume r m) = false).

Lemma called_app (t1 t2 : list (@Observation V)) :
  called (t1 ++ t2) = called t1 + called t2.
Proof.
  induction t1 as [|[c|] t1 IH]; simpl; [done| |done]. by rewrite IH.
Qed.

(** Once the timer is cleared it stays so and cannot fire, and every
    invocation of the callback is paid for by a handler that was already
    suspended. *)
Lemma run_cleared evs : forall m m',
  timer m = false ->
  run resume m evs = Some m' ->
  timer m' = false
  /\ Forall (fun ev => ev <> @Tick R) evs
  /\ exists after, trace m' = after ++ trace m
       /\ called after + 2 * awaiting m' <= 2 * awaiting m.
Proof.
  induction evs as [|ev rest IH]; intros m m' Hoff Hrun; simpl in Hrun.
  - injection Hrun as <-. repeat split; [done|constructor|].
    exists []. split; [done|simpl; lia].
  - destruct (step resume m ev) as [m1|] eqn:Hstep; [|done].
    simpl in Hrun.
    destruct ev as [|r|]; simpl in Hstep.
    + by rewrite Hoff in Hstep.
    + destruct (awaiting m) as [|n] eqn:Hp; [done|].
      injection Hstep as <-.
      destruct (resume_trace r (mkMachine (timer m) n (memory m) (trace m)))
        as (new & Htrace & Hwait & Hnew & _ & Hstay).
      simpl in *.
      destruct (IH _ m' (Hstay Hoff) Hrun) as (Hoff' & Hticks & after & Hafter & Hlen).
      repeat split; [done|by constructor|].
      exists (after ++ new).
      split; [by rewrite Hafter, Htrace, app_assoc|].
      rewrite called_app. lia.
    + injection Hstep as <-.
      destruct (IH (unsubscribe m) m' eq_refl Hrun)
        as (Hoff' & Hticks & after & Hafter & Hlen).
      simpl in *. repeat split; [done|by constructor|].
      exists (after ++ [Unsubscribed]).
      split; [by rewrite Hafter, <- app_assoc|].
      rewrite called_app. simpl. lia.
Qed.

(** The step in which the timer is cleared. *)
Lemma step_clears m0 ev m1 :
  timer m0 = true ->
  step resume m0 ev = Some m1 ->
  timer m1 = false ->
  exists during,
    trace m1 = during ++ trace m0
    /\ called (since_unsubscribed during) <= 1
    /\ (ev = Unsubscribe -> during = [Unsubscribed]).
Proof.
  intros Hon Hstep Hoff. destruct ev as [|r|]; simpl in Hstep.
  - rewrite Hon in Hstep. injection Hstep as <-. done.
  - destruct (awaiting m0) as [|n]; [done|]. injection Hstep as <-.
    destruct (resume_trace r (mkMachine (timer m0) n (memory m0) (trace m0)))
      as (new & Htrace & _ & _ & Hsince & _).
    exists new. by repeat split.
  - injection Hstep as <-. exists [Unsubscribed]. simpl.
    split; [done|]. split; [lia|done].
Qed.

Lemma run_cancelled m0 ev m1 post m2 :
  timer m0 = true ->
  step resume m0 ev = Some m1 ->
  timer m1 = false ->
  run resume m1 post = Some m2 ->
  cancelled_run m0 m1 m2 ev post.
Proof.
  intros Hon Hstep Hoff Hrun.
  destruct (step_clears m0 ev m1 Hon Hstep Hoff) as (during & Hduring & Hsince & Hout).
  destruct (run_cleared post m1 m2 Hoff Hrun) as (Hoff2 & Hticks & after & Hafter & Hlen).
  exists during, after. repeat split; try done; try lia.
  intros Hev Hnone. rewrite called_app, (Hout Hev). simpl. lia.
Qed.

End Subscriptions.

(** Shapes a stretch of trace can have, tried in turn. *)
Ltac stretch :=
  first
    [ eexists (cons _ nil); split; [reflexivity|]
    | eexists (cons _ (cons _ nil)); split; [reflexivity|]
    | eexists (cons _ (cons _ (cons _ nil))); split; [reflexivity|]
    | eexists (cons _ (cons _ (cons _ (cons _ nil)))); split; [reflexivity|] ];
  simpl; repeat split; try done; lia.

Lemma subscribeToAccount_resume_trace {St : Type}
    (callback : @Callback (option string) St) r m :
  exists new,
    trace (subscribeToAccount_resume callback r m) = new ++ trace m
    /\ awaiting (subscribeToAccount_resume callback r m) = awaiting m
    /\ called new <= 2
    /\ called (since_unsubscribed new) <= 1
    /\ (timer m = false -> timer (subscribeToAccount_resume callback r m) = false).
Proof.
  unfold subscribeToAccount_resume, invoke.
  destruct r as [accounts|e]; simpl.
  - destruct (callback (memory m) _) as [mem1 [[|] [[]|e1]]]; simpl;
      try stretch;
      destruct (callback mem1 _) as [mem2 [[|] res2]]; simpl; stretch.
  - destruct (callback (memory m) _) as [mem1 [[|] res1]]; simpl; stretch.
Qed.

Lemma subscribeToNetId_resume_trace {St : Type}
    (callback : @Callback number St) r m :
  exists new,
    trace (subscribeToNetId_resume callback r m) = new ++ trace m
    /\ awaiting (subscribeToNetId_resume callback r m) = awaiting m
    /\ called new <= 2
    /\ called (since_unsubscribed new) <= 1
    /\ (timer m = false -> timer (subscribeToNetId_resume callback r m) = false).
Proof.
  unfold subscribeToNetId_resume, invoke.
  destruct r as [netId|e]; simpl.
  - destruct (callback (memory m) _) as [mem1 [[|] [[]|e1]]]; simpl;
      try stretch;
      destruct (callback mem1 _) as [mem2 [[|] res2]]; simpl; stretch.
  - destruct (callback (memory m) _) as [mem1 [[|] res1]]; simpl; stretch.
Qed.

(** The plain model of the subscriptions, in which the callback is a
    function of its arguments, is this one for a callback without state
    that never calls the unsubscribe function: the two run in step. *)
Lemma plain_run {R V : Type} handler resume :
  (forall (r : completion R) (m : @Machine V unit),
     timer (resume r m) = timer m
     /\ awaiting (resume r m) = awaiting m
     /\ calls_of (trace (resume r m)) = handler r ++ calls_of (trace m)) ->
  forall evs s m,
    in_step s m ->
    match Web3Api.run handler s evs, run resume m evs with
    | Some s', Some m' => in_step s' m'
    | None, None => True
    | _, _ => False
    end.
Proof.
  intros Hresume.
  induction evs as [|ev rest IH]; intros s m (Ht & Ha & Hc); simpl; [done|].
  destruct ev as [|r|]; simpl.
  - rewrite Ht. destruct (interval s); simpl; [|done].
    apply IH. repeat split; simpl; congruence.
  - rewrite Ha. destruct (pending s) as [|n]; simpl; [done|].
    apply IH.
    destruct (Hresume r (mkMachine (timer m) n (memory m) (trace m)))
      as (Ht' & Ha' & Hc').
    simpl in *. repeat split; simpl; congruence.
  - apply IH. repeat split; simpl; congruence.
Qed.

Lemma plain_subscribeToAccount callback evs s m :
  in_step s m ->
  match Web3Api.run (subscribeToAccount_handler callback) s evs,
        run (subscribeToAccount_resume (plain callback)) m evs with
  | Some s', Some m' => in_step s' m'
  | None, None => True
  | _, _ => False
  end.
Proof.
  apply plain_run. intros r m0.
  unfold subscribeToAccount_resume, subscribeToAccount_handler, invoke, plain.
  destruct r as [accounts|e]; simpl; [|done].
  destruct (callback _); by repeat split.
Qed.

Lemma plain_subscribeToNetId callback evs s m :
  in_step s m ->
  match Web3Api.run (subscribeToNetId_handler callback) s evs,
        run (subscribeToNetId_resume (plain callback)) m evs with
  | Some s', Some m' => in_step s' m'
  | None, None => True
  | _, _ => False
  end.
Proof.
  apply plain_run. intros r m0.
  unfold subscribeToNetId_resume, subscribeToNetId_handler, invoke, plain.
  destruct r as [netId|e]; simpl; [|done].
  destruct (callback _); by repeat split.
Qed.


End Web3ApiReentrantSpec.

(** * The model run on concrete inputs *)

Module MultiSigWalletRuns.
Import JS MultiSigWallet.

#[local] Existing Instance Runtime.builtins.

Example parseInt_decimal : parseInt "12" = Num 12.
Proof. reflexivity. Qed.

Example parseInt_prefix : parseInt " -7px" = Num (-7).
Proof. reflexivity. Qed.

Example parseInt_hex : parseInt "0x1f" = Num 31.
Proof. reflexivity. Qed.

Example parseInt_NaN : parseInt "abc" = NaN.
Proof. reflexivity. Qed.

(** C1: the viewer ["0xA"] confirms transaction 0, and the record says so;
    then owner ["0xB"] confirms it too.  The fold counts two
    confirmations and overwrites the viewer's flag with [false], although
    the viewer's confirmation stands. *)
Theorem C1_confirm_by_other_owner_clears_flag :
  let confirmed_by_viewer :=
    {| txIndex := Num 0; to := "0xD"; value := 0%Z; data := "0x0123";
       executed := false; numConfirmations := Num 1;
       isConfirmedByCurrentAccount := true |} in
  let confirmed_by_both :=
    {| txIndex := Num 0; to := "0xD"; value := 0%Z; data := "0x0123";
       executed := false; numConfirmations := Num 2;
       isConfirmedByCurrentAccount := false |} in
  replay "0xA" (Runtime.wallet_of [])
    [SubmitTransaction "0xA" "0" "0xD" "0" "0x0123";
     ConfirmTransaction "0xA" "0"]
    = Normal (Runtime.wallet_of [confirmed_by_viewer])
  /\ fold "0xA" (Runtime.wallet_of [confirmed_by_viewer])
       (ConfirmTransaction "0xB" "0")
    = Normal (Runtime.wallet_of [confirmed_by_both]).
Proof. split; reflexivity. Qed.

(** C2 at a concrete input: a Confirm for index 1 when only index 0 is
    held is folded without any error. *)
Lemma C2_missing_record_no_error :
  no_record "1" Runtime.wallet
  /\ fold "0xA" Runtime.wallet (ConfirmTransaction "0xB" "1") = Normal Runtime.wallet
  /\ forall e, fold "0xA" Runtime.wallet (ConfirmTransaction "0xB" "1") <> Throw e.
Proof.
  split; [|split].
  - repeat constructor.
  - reflexivity.
  - intros e. discriminate.
Qed.

Lemma C2_missing_record_skipped_witness :
  addressed_to "0xB" "1" (RevokeConfirmation "0xB" "1")
  /\ no_record "1" Runtime.wallet
  /\ fold "0xA" Runtime.wallet (RevokeConfirmation "0xB" "1") = Normal Runtime.wallet.
Proof.
  assert (Ha : addressed_to "0xB" "1" (RevokeConfirmation "0xB" "1")) by constructor.
  assert (Hn : no_record "1" Runtime.wallet) by repeat constructor.
  split; [exact Ha|split; [exact Hn|]].
  exact (MultiSigWalletSpec.C2_missing_record_skipped (H := Runtime.builtins) "0xA" Runtime.wallet "0xB" "1" _ Ha Hn).
Defined.

(** C3 at a concrete input: an executed record with two confirmations
    receives a Confirm from owner ["0xC"] and comes out with three, and
    with the viewer's flag overwritten. *)
Lemma C3_executed_record_changes :
  Runtime.wallet_executed.(transactions) !! 0%nat = Some Runtime.executed_tx
  /\ executed Runtime.executed_tx = true
  /\ strict_eq (txIndex Runtime.executed_tx) (parseInt "0") = true
  /\ exists state' tx',
       fold "0xA" Runtime.wallet_executed (ConfirmTransaction "0xC" "0") = Normal state'
       /\ transactions state' !! 0%nat = Some tx'
       /\ tx' <> Runtime.executed_tx
       /\ numConfirmations tx' = Num 3
       /\ isConfirmedByCurrentAccount tx' = false.
Proof.
  repeat split.
  eexists _, _. repeat split; discriminate.
Qed.

Lemma C3_executed_stays_executed_witness :
  addressed_to "0xB" "0" (ExecuteTransaction "0xB" "0")
  /\ transactions Runtime.wallet_executed !! 0%nat = Some Runtime.executed_tx
  /\ strict_eq (txIndex Runtime.executed_tx) (parseInt "0") = true
  /\ executed Runtime.executed_tx = true
  /\ exists state' tx',
       fold "0xA" Runtime.wallet_executed (ExecuteTransaction "0xB" "0") = Normal state'
       /\ transactions state' !! 0%nat = Some tx'
       /\ executed tx' = true
       /\ tx' = Runtime.executed_tx.
Proof.
  assert (Ha : addressed_to "0xB" "0" (ExecuteTransaction "0xB" "0")) by constructor.
  repeat split; [exact Ha|].
  destruct (MultiSigWalletSpec.C3_executed_stays_executed (H := Runtime.builtins)
              "0xA" Runtime.wallet_executed "0xB" "0" _ 0%nat Runtime.executed_tx
              Ha eq_refl eq_refl eq_refl)
    as (state' & tx' & Hfold & Hk & Hex & Hsame & _).
  exists state', tx'. repeat split; [exact Hfold|exact Hk|exact Hex|].
  exact (Hsame eq_refl).
Defined.

Lemma C5_submit_prepends_record_witness :
  toBN "25" = Normal 25%Z
  /\ exists state',
       fold "0xA" Runtime.wallet (SubmitTransaction "0xB" "1" "0xD" "25" "0x") = Normal state'
       /\ transactions state' =
            {| txIndex := Num 1; to := "0xD"; value := 25%Z; data := "0x";
               executed := false; numConfirmations := Num 0;
               isConfirmedByCurrentAccount := false |} :: [Runtime.pending_tx]
       /\ length (transactions state') = 2%nat
       /\ transactionCount state' = Num 2.
Proof.
  split; [reflexivity|].
  exact (MultiSigWalletSpec.C5_submit_prepends_record (H := Runtime.builtins)
           "0xA" Runtime.wallet "0xB" "1" "0xD" "25" "0x" 25%Z eq_refl).
Defined.

Lemma C6_confirm_then_revoke_witness :
  transactions Runtime.wallet !! 0%nat = Some Runtime.pending_tx
  /\ strict_eq (txIndex Runtime.pending_tx) (parseInt "0") = true
  /\ executed Runtime.pending_tx = false
  /\ exists state1 state2 tx2,
       fold "0xA" Runtime.wallet (ConfirmTransaction "0xA" "0") = Normal state1
       /\ fold "0xA" state1 (RevokeConfirmation "0xA" "0") = Normal state2
       /\ transactions state2 !! 0%nat = Some tx2
       /\ numConfirmations tx2 = Num 0
       /\ isConfirmedByCurrentAccount tx2 = false.
Proof.
  repeat split.
  destruct (MultiSigWalletSpec.C6_confirm_then_revoke (H := Runtime.builtins)
              "0xA" Runtime.wallet "0xA" "0" 0%nat Runtime.pending_tx
              eq_refl eq_refl eq_refl)
    as (state1 & state2 & tx2 & H1 & H2 & Hk & Hn & Hflag & _).
  exists state1, state2, tx2.
  repeat split; [exact H1|exact H2|exact Hk|exact Hn|exact (Hflag eq_refl)].
Defined.

Lemma C9_revoke_below_zero_witness :
  transactions Runtime.wallet !! 0%nat = Some Runtime.pending_tx
  /\ strict_eq (txIndex Runtime.pending_tx) (parseInt "0") = true
  /\ executed Runtime.pending_tx = false
  /\ numConfirmations Runtime.pending_tx = Num 0
  /\ exists state' tx',
       fold "0xA" Runtime.wallet (RevokeConfirmation "0xB" "0") = Normal state'
       /\ transactions state' !! 0%nat = Some tx'
       /\ numConfirmations tx' = Num (-1).
Proof.
  repeat split.
  exact (MultiSigWalletSpec.C9_revoke_below_zero (H := Runtime.builtins)
           "0xA" Runtime.wallet "0xB" "0" 0%nat Runtime.pending_tx
           eq_refl eq_refl eq_refl eq_refl).
Defined.

Example revoke_at_zero_run :
  fold "0xA" Runtime.wallet (RevokeConfirmation "0xB" "0")
  = Normal (Runtime.wallet_of
              [{| txIndex := Num 0; to := "0xD"; value := 0%Z; data := "0x0123";
                  executed := false; numConfirmations := Num (-1);
                  isConfirmedByCurrentAccount := false |}]).
Proof. reflexivity. Qed.

(** C5 at a concrete input: a Submit notification whose value field is
    not an integer numeral.  [toBN] throws, so does the fold, and no record
    is added. *)
Lemma C5_submit_rejected_value :
  (exists e, toBN "1.5" = Throw e)
  /\ (exists e,
        fold "0xA" Runtime.wallet (SubmitTransaction "0xB" "1" "0xD" "1.5" "0x")
          = Throw e)
  /\ forall state',
       fold "0xA" Runtime.wallet (SubmitTransaction "0xB" "1" "0xD" "1.5" "0x")
         <> Normal state'.
Proof.
  split; [by eexists|]. split; [by eexists|]. intros state'. discriminate.
Qed.

(** C7 at a concrete input: one snapshot, one sequence, two viewers.  The
    replay for the viewer ["0xA"], who is the confirming owner, sets the
    flag of the record; the replay for the viewer ["0xB"] does not. *)
Lemma C7_viewers_differ :
  exists stateA stateB,
    replay "0xA" Runtime.wallet [ConfirmTransaction "0xA" "0"] = Normal stateA
    /\ replay "0xB" Runtime.wallet [ConfirmTransaction "0xA" "0"] = Normal stateB
    /\ isConfirmedByCurrentAccount <$> transactions stateA = [true]
    /\ isConfirmedByCurrentAccount <$> transactions stateB = [false]
    /\ stateA <> stateB.
Proof.
  eexists _, _. split; [reflexivity|]. split; [reflexivity|].
  split; [reflexivity|]. split; [reflexivity|]. discriminate.
Qed.

Lemma C7_replay_depends_on_viewer_only_witness :
  Forall (MultiSigWalletViewer.names_alike "0xB" "0xC")
    [ConfirmTransaction "0xA" "0"; RevokeConfirmation "0xA" "0"]
  /\ replay "0xB" Runtime.wallet
       [ConfirmTransaction "0xA" "0"; RevokeConfirmation "0xA" "0"]
     = replay "0xC" Runtime.wallet
         [ConfirmTransaction "0xA" "0"; RevokeConfirmation "0xA" "0"]
  /\ MultiSigWalletViewer.outcomes_agree
       (replay "0xA" Runtime.wallet [ConfirmTransaction "0xA" "0"])
       (replay "0xB" Runtime.wallet [ConfirmTransaction "0xA" "0"]).
Proof.
  assert (Hnames : Forall (MultiSigWalletViewer.names_alike "0xB" "0xC")
                     [ConfirmTransaction "0xA" "0"; RevokeConfirmation "0xA" "0"])
    by (repeat constructor).
  split; [exact Hnames|]. split.
  - exact (proj1 (proj2 (MultiSigWalletSpec.C7_replay_depends_on_viewer_only
                           (H := Runtime.builtins) "0xB" "0xC" Runtime.wallet
                           [ConfirmTransaction "0xA" "0"; RevokeConfirmation "0xA" "0"]))
             Hnames).
  - exact (proj1 (MultiSigWalletSpec.C7_replay_depends_on_viewer_only
                    (H := Runtime.builtins) "0xA" "0xB" Runtime.wallet
                    [ConfirmTransaction "0xA" "0"])).
Defined.

End MultiSigWalletRuns.

Module Web3ApiRuns.
Import JS Web3Api.



(** C10 at a concrete input: a provider is injected and has an account,
    but its user rejects the connection request; [unlockAccount] returns
    no account and fails with the provider's error. *)
Lemma C10_provider_rejects :
  getAccounts Runtime.provider_rejected = Normal ["0xA"%string]
  /\ unlockAccount (Some Runtime.provider_rejected)
       = Throw (mkError "User rejected the request.")
  /\ (forall u, unlockAccount (Some Runtime.provider_rejected) <> Normal u)
  /\ unlockAccount (Some Runtime.provider_rejected)
       <> Throw (mkError "Web3 not found").
Proof. repeat split; try done. Qed.

Lemma C10_unlockAccount_witness :
  enable Runtime.provider_approved = Normal ()
  /\ getAccounts Runtime.provider_approved = Normal ["0xA"%string]
  /\ unlockAccount (Some Runtime.provider_approved)
       = Normal (mkUnlocked (mkWeb3 Runtime.provider_approved) "0xA").
Proof.
  split; [reflexivity|split; [reflexivity|]].
  destruct (Web3ApiSpec.C10_unlockAccount Runtime.provider_approved)
    as (_ & Hok & _).
  exact (Hok ["0xA"%string] eq_refl eq_refl).
Defined.

End Web3ApiRuns.

(** * More properties of the projection fold *)

Module MultiSigWalletFacts.
Import JS MultiSigWallet MultiSigWalletUpdater.

Section Fold.
Context `{Builtins}.

Lemma later_version_refl tx : later_version tx tx.
Proof. by repeat split. Qed.

Lemma later_version_trans tx1 tx2 tx3 :
  later_version tx1 tx2 -> later_version tx2 tx3 -> later_version tx1 tx3.
Proof.
  intros (Hi & Ht & Hv & Hd & He) (Hi' & Ht' & Hv' & Hd' & He').
  repeat split; try congruence. auto.
Qed.

Lemma updatedTx_later a o e c tx : later_version tx (updatedTx a o e c tx).
Proof.
  unfold updatedTx.
  destruct e as [[|]|], c as [[|]|]; simpl;
    try destruct (String.eqb o a); by repeat split.
Qed.

(** What folding one notification keeps and changes. *)
Lemma fold_step account s log s1 :
  fold account s log = Normal s1 ->
  address s1 = address s
  /\ owners s1 = owners s
  /\ numConfirmationsRequired s1 = numConfirmationsRequired s
  /\ balance s1 = last_balance (balance s) [log]
  /\ length (transactions s1) = (submissions [log] + length (transactions s))%nat
  /\ transactionCount s1 =
       match submissions [log] with
       | O => transactionCount s
       | S _ => add (transactionCount s) (Num 1)
       end
  /\ forall (k : nat) tx, transactions s !! k = Some tx ->
       exists tx1, transactions s1 !! (submissions [log] + k)%nat = Some tx1
                   /\ later_version tx tx1.
Proof.
  assert (Hupd : forall a i o e c,
            let s1 := {| address := address s; balance := balance s;
                         owners := owners s;
                         numConfirmationsRequired := numConfirmationsRequired s;
                         transactionCount := transactionCount s;
                         transactions :=
                           (fun tx => if strict_eq (txIndex tx) (parseInt i)
                                      then updatedTx a o e c tx else tx)
                             <$> transactions s |} in
            length (transactions s1) = length (transactions s)
            /\ forall (k : nat) tx, transactions s !! k = Some tx ->
                 exists tx1, transactions s1 !! k = Some tx1 /\ later_version tx tx1).
  { intros a i o e c; simpl. split; [apply length_fmap|].
    intros k tx Hk. rewrite list_lookup_fmap, Hk; simpl.
    eexists; split; [done|].
    destruct (strict_eq _ _); [apply updatedTx_later|apply later_version_refl]. }
  unfold fold.
  destruct log as [sender amount total|owner i dest amount payload|o i|o i|o i|ev];
    simpl; intros Hs1.
  - injection Hs1 as <-. simpl. repeat split.
    intros k tx Hk. exists tx. split; [done|apply later_version_refl].
  - destruct (toBN amount) as [v|e]; simpl in Hs1; [|done].
    injection Hs1 as <-. simpl. repeat split.
    intros k tx Hk. exists tx. split; [done|apply later_version_refl].
  - injection Hs1 as <-.
    destruct (Hupd account i o None (Some true)) as [Hlen Hrec].
    simpl in *. by repeat split.
  - injection Hs1 as <-.
    destruct (Hupd account i o None (Some false)) as [Hlen Hrec].
    simpl in *. by repeat split.
  - injection Hs1 as <-.
    destruct (Hupd account i o (Some true) None) as [Hlen Hrec].
    simpl in *. by repeat split.
  - injection Hs1 as <-. repeat split.
    intros k tx Hk. exists tx. split; [done|apply later_version_refl].
Qed.

Lemma replay_cons_Normal account s log rest s' :
  replay account s (log :: rest) = Normal s' ->
  exists s1, fold account s log = Normal s1 /\ replay account s1 rest = Normal s'.
Proof.
  simpl. destruct (fold account s log) as [s1|e]; simpl; [|done].
  intros Hrest. by exists s1.
Qed.

Lemma submissions_cons log rest :
  submissions (log :: rest) = (submissions [log] + submissions rest)%nat.
Proof. by destruct log. Qed.

Lemma last_balance_cons b log rest :
  last_balance b (log :: rest) = last_balance (last_balance b [log]) rest.
Proof. by destruct log. Qed.

(** X1: no sequence of notifications changes which wallet the projection
    is about: its address, owners and threshold stay as bootstrapped, and
    so does the guard under which [Updater] subscribes. *)
Theorem replay_keeps_wallet account state logs state' :
  replay account state logs = Normal state' ->
  address state' = address state
  /\ owners state' = owners state
  /\ numConfirmationsRequired state' = numConfirmationsRequired state
  /\ forall web3, Updater_subscribes web3 state' = Updater_subscribes web3 state.
Proof.
  revert state. induction logs as [|log rest IH]; intros state Hrun.
  - injection Hrun as <-. by repeat split.
  - apply replay_cons_Normal in Hrun as (s1 & Hstep & Hrest).
    apply fold_step in Hstep as (Ha & Ho & Hn & _).
    destruct (IH _ Hrest) as (Ha' & Ho' & Hn' & Hsub).
    repeat split; try congruence.
    intros web3. unfold Updater_subscribes in *.
    destruct web3; [|done]. congruence.
Qed.

(** X2: after a sequence of notifications the balance shown is the total
    carried by the last Deposit among them, or the old balance when there
    was none; submissions, confirmations, revocations and executions never
    touch it. *)
Theorem replay_balance account state logs state' :
  replay account state logs = Normal state' ->
  balance state' = last_balance (balance state) logs.
Proof.
  revert state. induction logs as [|log rest IH]; intros state Hrun.
  - by injection Hrun as <-.
  - apply replay_cons_Normal in Hrun as (s1 & Hstep & Hrest).
    apply fold_step in Hstep as (_ & _ & _ & Hb & _).
    rewrite (IH _ Hrest), Hb. symmetry. apply last_balance_cons.
Qed.

(** X3: if the transaction count equals the number of local records, it
    still does after any sequence of notifications, and the number of
    records has grown by the number of submissions in the sequence. *)
Theorem replay_counts_records account state logs state' :
  counts_records state ->
  replay account state logs = Normal state' ->
  counts_records state'
  /\ length (transactions state') = (submissions logs + length (transactions state))%nat.
Proof.
  revert state. induction logs as [|log rest IH]; intros state Hcount Hrun.
  - by injection Hrun as <-.
  - apply replay_cons_Normal in Hrun as (s1 & Hstep & Hrest).
    apply fold_step in Hstep as (_ & _ & _ & _ & Hlen & Hcnt & _).
    assert (Hcount1 : counts_records s1).
    { unfold counts_records in *. rewrite Hcnt, Hlen, Hcount.
      destruct (submissions [log]) as [|n] eqn:E; [done|].
      destruct log; try discriminate. injection E as <-. simpl. f_equal. lia. }
    destruct (IH _ Hcount1 Hrest) as [Hc Hl].
    split; [done|]. rewrite Hl, Hlen, (submissions_cons log rest). lia.
Qed.

(** X4: a record is never dropped, reordered among the older ones or
    given another identity: after any sequence of notifications the record
    that was at position [k] is at position [k] plus the number of
    submissions, with the same index, destination, value and data, and
    still executed if it was. *)
Theorem replay_keeps_records account state logs state' (k : nat) tx :
  replay account state logs = Normal state' ->
  transactions state !! k = Some tx ->
  exists tx', transactions state' !! (submissions logs + k)%nat = Some tx'
              /\ later_version tx tx'.
Proof.
  revert state k tx. induction logs as [|log rest IH]; intros state k tx Hrun Hk.
  - injection Hrun as <-. exists tx. split; [done|apply later_version_refl].
  - apply replay_cons_Normal in Hrun as (s1 & Hstep & Hrest).
    apply fold_step in Hstep as (_ & _ & _ & _ & _ & _ & Hrec).
    destruct (Hrec k tx Hk) as (tx1 & Hk1 & Hlater1).
    destruct (IH _ _ _ Hrest Hk1) as (tx' & Hk' & Hlater').
    exists tx'. split; [|by eapply later_version_trans].
    rewrite (submissions_cons log rest).
    by replace (submissions [log] + submissions rest + k)%nat
         with (submissions rest + (submissions [log] + k))%nat by lia.
Qed.

(** X5: the fold fails on exactly one kind of input, a submission whose
    value [toBN] rejects, and then with the error [toBN] threw; deposits,
    confirmations, revocations, executions and unknown events are always
    folded. *)
Theorem fold_throws_only_on_bad_value account state log e :
  fold account state log = Throw e <->
  exists owner i dest amount payload,
    log = SubmitTransaction owner i dest amount payload /\ toBN amount = Throw e.
Proof.
  split.
  - unfold fold.
    destruct log as [sender amount total|owner i dest amount payload|o i|o i|o i|ev];
      simpl; try discriminate.
    destruct (toBN amount) as [v|e'] eqn:E; simpl; [discriminate|].
    intros [= ->]. by exists owner, i, dest, amount, payload.
  - intros (owner & i & dest & amount & payload & -> & E).
    unfold fold; simpl. by rewrite E.
Qed.

Lemma fold_addressed account state o i log :
  addressed_to o i log ->
  exists state',
    fold account state log = Normal state'
    /\ length (transactions state') = length (transactions state)
    /\ forall k : nat, transactions state' !! k =
         (fun tx => if strict_eq (txIndex tx) (parseInt i)
                    then addressed_update account log tx else tx)
           <$> transactions state !! k.
Proof.
  intros Hlog. unfold fold. destruct Hlog; simpl;
    (eexists; split; [reflexivity|]; simpl;
     split; [apply length_fmap|intros k; apply list_lookup_fmap]).
Qed.

Lemma strict_eq_NaN_r a : strict_eq a NaN = false.
Proof. by destruct a. Qed.

(** X7: a Confirm, Revoke or Execute notification whose index field does
    not parse as a number changes nothing. *)
Theorem unparseable_index_ignored account state o i log :
  parseInt i = NaN ->
  addressed_to o i log ->
  fold account state log = Normal state.
Proof.
  intros Hnan Hlog.
  assert (Hno : Forall (fun tx => strict_eq (txIndex tx) (parseInt i) = false)
                  (transactions state)).
  { rewrite Hnan. apply Forall_forall. intros tx _. apply strict_eq_NaN_r. }
  destruct Hlog; unfold fold; simpl;
    rewrite (MultiSigWalletSpec.fmap_no_record _ _ _ Hno);
    by rewrite MultiSigWalletSpec.state_eta.
Qed.

(** X8: a Confirm, Revoke or Execute notification leaves every record
    with another index exactly as it was, at its position, and the list
    keeps its length. *)
Theorem other_records_untouched account state o i log (k : nat) tx :
  addressed_to o i log ->
  transactions state !! k = Some tx ->
  strict_eq (txIndex tx) (parseInt i) = false ->
  exists state',
    fold account state log = Normal state'
    /\ transactions state' !! k = Some tx
    /\ length (transactions state') = length (transactions state).
Proof.
  intros Hlog Hk Hi.
  destruct (fold_addressed account state o i log Hlog) as (state' & Hfold & Hlen & Hrec).
  exists state'. repeat split; [done| |done].
  by rewrite Hrec, Hk; simpl; rewrite Hi.
Qed.

(** X9: a record whose own index is [NaN] (it was submitted with an index
    field that does not parse) is out of reach: no Confirm, Revoke or
    Execute notification, whatever index it names, changes it. *)
Theorem NaN_record_out_of_reach account state o i log (k : nat) tx :
  addressed_to o i log ->
  transactions state !! k = Some tx ->
  txIndex tx = NaN ->
  exists state',
    fold account state log = Normal state'
    /\ transactions state' !! k = Some tx.
Proof.
  intros Hlog Hk Hnan.
  destruct (fold_addressed account state o i log Hlog) as (state' & Hfold & _ & Hrec).
  exists state'. split; [done|].
  by rewrite Hrec, Hk; simpl; rewrite Hnan.
Qed.

(** X10: an Execute notification marks the record it matches as executed
    and changes nothing else of it: the confirmation count and the
    viewer's flag stay. *)
Theorem execute_effect account state o i (k : nat) tx :
  transactions state !! k = Some tx ->
  strict_eq (txIndex tx) (parseInt i) = true ->
  exists state' tx',
    fold account state (ExecuteTransaction o i) = Normal state'
    /\ transactions state' !! k = Some tx'
    /\ executed tx' = true
    /\ numConfirmations tx' = numConfirmations tx
    /\ isConfirmedByCurrentAccount tx' = isConfirmedByCurrentAccount tx
    /\ later_version tx tx'.
Proof.
  intros Hk Hi.
  destruct (fold_addressed account state o i _ (addressed_execute o i))
    as (state' & Hfold & _ & Hrec).
  exists state', (set_executed tx). repeat split; try done.
  by rewrite Hrec, Hk; simpl; rewrite Hi.
Qed.

(** X11: a Revoke notification takes one confirmation from the record it
    matches; it clears the viewer's flag when the revoking owner is the
    viewer and leaves the flag alone when it is another owner.  [executed]
    is not touched. *)
Theorem revoke_effect account state o i (k : nat) tx :
  transactions state !! k = Some tx ->
  strict_eq (txIndex tx) (parseInt i) = true ->
  exists state' tx',
    fold account state (RevokeConfirmation o i) = Normal state'
    /\ transactions state' !! k = Some tx'
    /\ numConfirmations tx' = sub (numConfirmations tx) (Num 1)
    /\ (o = account -> isConfirmedByCurrentAccount tx' = false)
    /\ (o <> account ->
          isConfirmedByCurrentAccount tx' = isConfirmedByCurrentAccount tx)
    /\ executed tx' = executed tx.
Proof.
  intros Hk Hi.
  destruct (fold_addressed account state o i _ (addressed_revoke o i))
    as (state' & Hfold & _ & Hrec).
  exists state', (updatedTx account o None (Some false) tx).
  split; [done|]. split; [by rewrite Hrec, Hk; simpl; rewrite Hi|].
  unfold updatedTx; simpl.
  destruct (String.eqb o account) eqn:E; simpl; repeat split; try done.
  - apply String.eqb_eq in E. by intros ?.
  - apply String.eqb_neq in E. by intros ?.
Qed.

(** X12: the fold is not idempotent: the same Confirm notification
    delivered [n] times adds [n] confirmations to the record it matches. *)
Theorem confirm_counted_each_time account o i (n : nat) :
  forall state (k : nat) tx c,
    transactions state !! k = Some tx ->
    strict_eq (txIndex tx) (parseInt i) = true ->
    numConfirmations tx = Num c ->
    exists state' tx',
      replay account state (replicate n (ConfirmTransaction o i)) = Normal state'
      /\ transactions state' !! k = Some tx'
      /\ numConfirmations tx' = Num (c + Z.of_nat n).
Proof.
  induction n as [|n IH]; intros state k tx c Hk Hi Hc.
  - exists state, tx. simpl. repeat split; [done|]. rewrite Hc. f_equal. lia.
  - destruct (MultiSigWalletSpec.reducer_UPDATE_TX_match
                state account i o None (Some true) k tx Hk Hi)
      as (s1 & Hfold & Hk1).
    set (tx1 := updatedTx account o None (Some true) tx) in *.
    assert (Hi1 : strict_eq (txIndex tx1) (parseInt i) = true)
      by (unfold tx1; by rewrite MultiSigWalletSpec.updatedTx_txIndex).
    assert (Hc1 : numConfirmations tx1 = Num (c + 1))
      by (unfold tx1, updatedTx; simpl; by rewrite Hc).
    destruct (IH s1 k tx1 (c + 1)%Z Hk1 Hi1 Hc1) as (state' & tx' & Hrun & Hk' & Hc').
    exists state', tx'. repeat split; [|done|].
    + change (replicate (S n) (ConfirmTransaction o i))
        with (ConfirmTransaction o i :: replicate n (ConfirmTransaction o i)).
      simpl. unfold fold; simpl. unfold reducer in Hfold. simpl in Hfold.
      injection Hfold as <-. exact Hrun.
    + rewrite Hc'. f_equal. lia.
Qed.

(** X13: a submitted transaction can be addressed at once, provided its
    index field parses: after a Submit and a Confirm naming the same
    index, the new record is first in the list with one confirmation, and
    the viewer's flag says whether the viewer is the confirming owner. *)
Theorem submitted_record_is_addressable
    account state owner i dest amount payload v z o :
  toBN amount = Normal v ->
  parseInt i = Num z ->
  exists state',
    replay account state
      [SubmitTransaction owner i dest amount payload; ConfirmTransaction o i]
      = Normal state'
    /\ transactions state' !! 0%nat =
         Some {| txIndex := Num z; to := dest; value := v; data := payload;
                 executed := false; numConfirmations := Num 1;
                 isConfirmedByCurrentAccount := String.eqb o account |}
    /\ length (transactions state') = S (length (transactions state)).
Proof.
  intros Hv Hz. simpl. unfold fold; simpl. rewrite Hv; simpl.
  eexists. split; [reflexivity|]. simpl. rewrite Hz; simpl.
  rewrite Z.eqb_refl. unfold updatedTx; simpl.
  split; [done|]. by rewrite length_fmap.
Qed.

(** X14: loading the wallet.  When there is no [web3] or
    [getMultiSigWallet] rejects, nothing is dispatched: a projection that
    is still [INITIAL_STATE] stays so, and [Updater] does not subscribe to
    the wallet's events.  When the wallet loads, the projection becomes the
    loaded data, whatever it held before. *)
Theorem bootstrap_outcome web3 result state :
  ((web3 = None \/ exists e, result = Throw e) ->
     bootstrap web3 result state = Normal state
     /\ (state = INITIAL_STATE -> Updater_subscribes web3 state = false))
  /\ (forall w data, web3 = Some w -> result = Normal data ->
        bootstrap web3 result state = Normal data
        /\ (Updater_subscribes web3 data = true <-> address data <> ""%string)).
Proof.
  split.
  - intros Hfail. split.
    + unfold bootstrap, Updater_get.
      destruct web3; [|done]. destruct Hfail as [?|[e ->]]; done.
    + intros ->. unfold Updater_subscribes. by destruct web3.
  - intros w data -> ->. split; [done|].
    unfold Updater_subscribes.
    destruct (String.eqb (address data) "") eqn:E; simpl.
    + apply String.eqb_eq in E. split; [done|]. by intros ?.
    + apply String.eqb_neq in E. by split.
Qed.

End Fold.
End MultiSigWalletFacts.

(** * Properties of the connection state and its callbacks *)

Module Web3ContextFacts.
Import JS Web3Context.

(** X15: once a [web3] instance is in the connection state, no sequence
    of actions removes it: [UPDATE_ACCOUNT] without an instance keeps the
    one there is, and [UPDATE_NET_ID] does not touch it. *)
Theorem web3_stays_set actions : forall state,
  is_Some (web3 state) ->
  is_Some (web3 (foldl reducer state actions)).
Proof.
  induction actions as [|action rest IH]; intros state Hset; simpl; [done|].
  apply IH. destruct action as [a [w|]|n]; simpl; [by eexists|done|done].
Qed.

(** X16: a failed query is handled differently by the two
    subscriptions.  The account subscription logs it and reloads the
    page: the handler reports the rejection as [callback(error, null)], and
    for the callback [null] is an account other than the current one.  The
    network subscription only logs it. *)
Theorem failed_poll state e :
  account_poll state (Throw e) = [console_error e; location_reload]
  /\ netId_poll state (Throw e) = [console_error e].
Proof. split; reflexivity. Qed.

(** X17: when the query of the account subscription resolves, the page
    is reloaded exactly when the list has a first account and it is not
    the current one, and nothing else happens.  An empty list (no account
    exposed any more) is not noticed. *)
Theorem account_poll_resolved state accounts :
  (account_poll state (Normal accounts) = [location_reload]
   \/ account_poll state (Normal accounts) = [])
  /\ (account_poll state (Normal accounts) = [location_reload] <->
      exists a rest, accounts = a :: rest /\ a <> account state).
Proof.
  unfold account_poll. destruct accounts as [|a rest]; simpl.
  - split; [by right|]. split; [done|]. by intros (a & rest & ? & _).
  - destruct (String.eqb a (account state)) eqn:E; simpl.
    + apply String.eqb_eq in E. split; [by right|]. split; [done|].
      intros (a' & rest' & [= <- _] & Hne). done.
    + apply String.eqb_neq in E. split; [by left|]. split; [|done].
      intros _. by exists a, rest.
Qed.

(** X18: the network id is adopted once and watched afterwards.  While
    the state holds [0], the first non-zero id that a query resolves to is
    dispatched, without a reload; in the state that results, the same id
    does nothing and any other non-zero id reloads the page. *)
Theorem netId_adopted_then_watched state n :
  netId state = Num 0 ->
  truthy n = true ->
  netId_poll state (Normal n) = [updateNetId n]
  /\ let state' := dispatched state (netId_poll state (Normal n)) in
     netId state' = n
     /\ account state' = account state
     /\ web3 state' = web3 state
     /\ netId_poll state' (Normal n) = []
     /\ forall m, truthy m = true -> m <> n ->
          netId_poll state' (Normal m) = [location_reload].
Proof.
  intros H0 Hn. destruct n as [|z]; [done|]. simpl in Hn.
  apply negb_true_iff in Hn.
  assert (Hpoll : netId_poll state (Normal (Num z)) = [updateNetId (Num z)]).
  { unfold netId_poll; simpl. by rewrite H0, Hn. }
  split; [done|]. rewrite Hpoll. simpl. repeat split.
  - unfold netId_poll; simpl. rewrite Hn; simpl.
    by rewrite Z.eqb_refl.
  - intros [|m] Hm Hne; [done|]. simpl in Hm.
    unfold netId_poll; simpl. rewrite Hm, Hn; simpl.
    destruct (m =? z)%Z eqn:E'; [|done].
    apply Z.eqb_eq in E'. by subst.
Qed.

(** X19: what the network subscription never does.  While the state
    holds [0] it never reloads the page, whatever the query settles as;
    once the state holds another id it never dispatches; and an id of [0]
    or [NaN] has no effect at all. *)
Theorem netId_poll_never state :
  (forall r, strict_eq (netId state) (Num 0) = true ->
             location_reload ∉ netId_poll state r)
  /\ (forall r n, strict_eq (netId state) (Num 0) = false ->
                  updateNetId n ∉ netId_poll state r)
  /\ (forall n, truthy n = false -> netId_poll state (Normal n) = []).
Proof.
  repeat split.
  - intros [n|e] H0; unfold netId_poll; simpl.
    + rewrite H0. destruct (truthy n); simpl; [|by apply not_elem_of_nil].
      intros Hin. apply list_elem_of_singleton in Hin. discriminate.
    + intros Hin. apply list_elem_of_singleton in Hin. discriminate.
  - intros [m|e] n H0; unfold netId_poll; simpl.
    + rewrite H0. destruct (truthy m); simpl; [|by apply not_elem_of_nil].
      destruct (strict_eq m (netId state)); simpl; [by apply not_elem_of_nil|].
      intros Hin. apply list_elem_of_singleton in Hin. discriminate.
    + intros Hin. apply list_elem_of_singleton in Hin. discriminate.
  - intros n Hn. unfold netId_poll; simpl. by rewrite Hn.
Qed.

End Web3ContextFacts.

(** * More properties of the polling subscriptions *)

Module Web3ApiFacts.
Import JS Web3Api Web3ApiCount.

Section Polling.
Context {R V : Type}.
Variable handler : completion R -> list (@Call V).

(** The interval fires whether or not earlier handlers have resumed. *)
Lemma run_ticks (n : nat) : forall s : @Subscription V,
  interval s = true ->
  run handler s (replicate n Tick)
    = Some {| interval := true; pending := n + pending s; calls := calls s |}.
Proof.
  induction n as [|n IH]; intros s Hon; simpl.
  - destruct s; simpl in *. by subst.
  - rewrite Hon; simpl. rewrite IH by done. simpl.
    do 2 f_equal. lia.
Qed.

Hypothesis handler_once : forall r, length (handler r) = 1.

(** With a handler that calls back exactly once, every firing of the
    timer is accounted for: its handler is suspended or has called back. *)
Lemma run_accounts evs : forall s s' : @Subscription V,
  run handler s evs = Some s' ->
  length (calls s') + pending s' = ticks evs + (length (calls s) + pending s).
Proof.
  induction evs as [|ev rest IH]; intros s s' Hrun; simpl in Hrun.
  - by injection Hrun as <-.
  - destruct (step handler s ev) as [s1|] eqn:Hstep; [|done]. simpl in Hrun.
    rewrite (IH _ _ Hrun).
    destruct ev as [|r|]; simpl in Hstep.
    + destruct (interval s); [|done]. injection Hstep as <-. simpl. lia.
    + destruct (pending s) as [|n] eqn:Hp; [done|]. injection Hstep as <-.
      simpl. rewrite length_app, handler_once. lia.
    + injection Hstep as <-. simpl. lia.
Qed.

End Polling.

(** X20: the subscriptions do not wait for a query to settle before
    starting the next one: after [n] firings of the timer without any
    query settling, [n] handlers are suspended at their [await]. *)
Theorem polls_pile_up (n : nat) :
  (forall callback,
     run (subscribeToAccount_handler callback) subscribeToAccount (replicate n Tick)
       = Some {| interval := true; pending := n; calls := [] |})
  /\ (forall callback,
       run (subscribeToNetId_handler callback) subscribeToNetId (replicate n Tick)
         = Some {| interval := true; pending := n; calls := [] |}).
Proof.
  split; intros callback.
  - rewrite (run_ticks _ n subscribeToAccount eq_refl). simpl.
    do 2 f_equal. lia.
  - rewrite (run_ticks _ n subscribeToNetId eq_refl). simpl.
    do 2 f_equal. lia.
Qed.

(** X21: with a callback that never throws, every firing of the timer
    leads to exactly one invocation of the callback: at any moment the
    invocations made plus the handlers still suspended equal the number of
    firings, before and after unsubscribing. *)
Theorem one_call_per_tick :
  (forall callback evs s',
     (forall c, callback c = Normal ()) ->
     run (subscribeToAccount_handler callback) subscribeToAccount evs = Some s' ->
     length (calls s') + pending s' = ticks evs)
  /\ (forall callback evs s',
       (forall c, callback c = Normal ()) ->
       run (subscribeToNetId_handler callback) subscribeToNetId evs = Some s' ->
       length (calls s') + pending s' = ticks evs).
Proof.
  split; intros callback evs s' Hquiet Hrun.
  - rewrite (run_accounts (subscribeToAccount_handler callback)) with (s := subscribeToAccount) (evs := evs);
      [simpl; lia| |done].
    intros [accounts|e]; simpl; [by rewrite Hquiet|done].
  - rewrite (run_accounts (subscribeToNetId_handler callback)) with (s := subscribeToNetId) (evs := evs);
      [simpl; lia| |done].
    intros [n|e]; simpl; [by rewrite Hquiet|done].
Qed.

End Web3ApiFacts.

(** * Properties of FrontRunMe *)

Module FrontRunMeFacts.
Import FrontRunMe.
Open Scope Z_scope.

Lemma secret_of_deposit c msg s c' :
  deposit c msg s = Success c' ->
  secret_of c' (sender msg) = s
  /\ (forall user, user <> sender msg -> secret_of c' user = secret_of c user)
  /\ balance c' = balance c + value msg.
Proof.
  intros [= <-]. unfold secret_of; simpl. repeat split.
  - by rewrite lookup_insert_eq.
  - intros user Hne. by rewrite lookup_insert_ne.
Qed.

Lemma withdraw_passes call c msg user s c' :
  value msg = 0 ->
  secret_of c user = s ->
  call (sender msg) (balance c)
       {| addressToSecret := addressToSecret c; balance := 0 |} = Some c' ->
  withdraw call c msg user s = Success (c', balance c).
Proof.
  intros Hv Hs Hcall. unfold withdraw.
  rewrite Hv, Hs, !Z.eqb_refl; simpl. by rewrite Hcall.
Qed.

Lemma withdraw_wrong_secret call c msg user s :
  value msg = 0 ->
  secret_of c user <> s ->
  withdraw call c msg user s = Revert "Wrong Password!".
Proof.
  intros Hv Hs. unfold withdraw. rewrite Hv; simpl.
  apply Z.eqb_neq in Hs. by rewrite Hs.
Qed.

(** X22: [deposit] always succeeds; it files the secret under the sender,
    replacing any earlier one, leaves every other address's secret alone
    and adds the value sent to the balance. *)
Theorem deposit_effect c msg s :
  exists c',
    deposit c msg s = Success c'
    /\ secret_of c' (sender msg) = s
    /\ (forall user, user <> sender msg -> secret_of c' user = secret_of c user)
    /\ balance c' = balance c + value msg.
Proof.
  eexists. split; [reflexivity|]. by apply secret_of_deposit.
Qed.

(** X23: a secret is not tied to its depositor.  After a user deposits,
    any caller who passes that user and that secret is paid the whole
    balance of the contract: the deposit just made and everything that
    was there before. *)
Theorem anyone_with_the_secret_is_paid_all call c deposited s c1 caller c2 :
  deposit c deposited s = Success c1 ->
  value caller = 0 ->
  call (sender caller) (balance c1)
       {| addressToSecret := addressToSecret c1; balance := 0 |} = Some c2 ->
  withdraw call c1 caller (sender deposited) s
    = Success (c2, balance c + value deposited).
Proof.
  intros Hdep Hv Hcall.
  destruct (secret_of_deposit _ _ _ _ Hdep) as (Hs & _ & Hb).
  rewrite <- Hb. by apply withdraw_passes.
Qed.

(** X24: an address that never deposited has the secret zero: anyone who
    names such an address and passes zero is paid the whole balance. *)
Theorem unset_secret_is_zero call c caller user c' :
  addressToSecret c !! user = None ->
  value caller = 0 ->
  call (sender caller) (balance c)
       {| addressToSecret := addressToSecret c; balance := 0 |} = Some c' ->
  withdraw call c caller user 0 = Success (c', balance c).
Proof.
  intros Hnone Hv Hcall. apply withdraw_passes; [done| |done].
  unfold secret_of. by rewrite Hnone.
Qed.

(** X25: why [withdraw] reverts.  "Wrong Password!" means that no value
    was sent and the secret passed is not the one on file for the user;
    "Failed to send Ether" means that the secret was right and the
    caller's account refused the transfer.  In both cases nothing is paid. *)
Theorem withdraw_reverts call c msg user s :
  (withdraw call c msg user s = Revert "Wrong Password!" <->
     value msg = 0 /\ secret_of c user <> s)
  /\ (withdraw call c msg user s = Revert "Failed to send Ether" <->
        value msg = 0 /\ secret_of c user = s
        /\ call (sender msg) (balance c)
                {| addressToSecret := addressToSecret c; balance := 0 |} = None).
Proof.
  unfold withdraw.
  destruct (value msg =? 0) eqn:Ev;
    [apply Z.eqb_eq in Ev|apply Z.eqb_neq in Ev]; simpl.
  - destruct (secret_of c user =? s) eqn:Es;
      [apply Z.eqb_eq in Es|apply Z.eqb_neq in Es]; simpl.
    + destruct (call _ _ _) as [c'|]; (split; split).
      all: try (intros E; discriminate E).
      all: try (intros Hc; exfalso; tauto).
      all: try (intros Hc; exfalso; destruct Hc as (_ & _ & Hc); discriminate Hc).
      all: tauto.
    + split; split.
      all: try (intros E; discriminate E).
      all: try tauto.
  - split; split.
    all: try (intros E; discriminate E).
    all: try tauto.
Qed.

(** X26: a second deposit from the same address replaces its secret: the
    earlier secret no longer opens the contract, and the later one pays
    out both deposits together with what was there before. *)
Theorem deposit_replaces_secret call c first second s1 s2 c1 c2 caller c3 :
  deposit c first s1 = Success c1 ->
  deposit c1 second s2 = Success c2 ->
  sender second = sender first ->
  s1 <> s2 ->
  value caller = 0 ->
  call (sender caller) (balance c2)
       {| addressToSecret := addressToSecret c2; balance := 0 |} = Some c3 ->
  withdraw call c2 caller (sender first) s1 = Revert "Wrong Password!"
  /\ withdraw call c2 caller (sender first) s2
       = Success (c3, balance c + value first + value second).
Proof.
  intros Hd1 Hd2 Hsame Hne Hv Hcall.
  destruct (secret_of_deposit _ _ _ _ Hd1) as (_ & _ & Hb1).
  destruct (secret_of_deposit _ _ _ _ Hd2) as (Hs2 & _ & Hb2).
  rewrite Hsame in Hs2. split.
  - apply withdraw_wrong_secret; [done|]. rewrite Hs2. by intros ?.
  - rewrite <- Hb1, <- Hb2. by apply withdraw_passes.
Qed.

End FrontRunMeFacts.

(** * The added properties on concrete inputs *)

Module FactsRuns.
Import JS.

Section MultiSigWallet.
Import MultiSigWallet MultiSigWalletUpdater.
#[local] Existing Instance Runtime.builtins.

Lemma history_run :
  replay "0xA" Runtime.wallet Samples.history = Normal Samples.wallet_after_history.
Proof. reflexivity. Qed.

Lemma replay_keeps_wallet_witness :
  replay "0xA" Runtime.wallet Samples.history = Normal Samples.wallet_after_history
  /\ address Samples.wallet_after_history = address Runtime.wallet
  /\ owners Samples.wallet_after_history = owners Runtime.wallet
  /\ numConfirmationsRequired Samples.wallet_after_history
       = numConfirmationsRequired Runtime.wallet
  /\ forall web3, Updater_subscribes web3 Samples.wallet_after_history
                  = Updater_subscribes web3 Runtime.wallet.
Proof.
  split; [reflexivity|].
  exact (MultiSigWalletFacts.replay_keeps_wallet (H := Runtime.builtins)
           "0xA" Runtime.wallet Samples.history Samples.wallet_after_history eq_refl).
Defined.

Lemma replay_balance_witness :
  replay "0xA" Runtime.wallet Samples.history = Normal Samples.wallet_after_history
  /\ balance Samples.wallet_after_history = "9"%string.
Proof.
  split; [reflexivity|].
  exact (MultiSigWalletFacts.replay_balance (H := Runtime.builtins)
           "0xA" Runtime.wallet Samples.history Samples.wallet_after_history eq_refl).
Defined.

Lemma replay_counts_records_witness :
  counts_records Runtime.wallet
  /\ replay "0xA" Runtime.wallet Samples.history = Normal Samples.wallet_after_history
  /\ counts_records Samples.wallet_after_history
  /\ length (transactions Samples.wallet_after_history) = 2%nat.
Proof.
  split; [reflexivity|]. split; [reflexivity|].
  exact (MultiSigWalletFacts.replay_counts_records (H := Runtime.builtins)
           "0xA" Runtime.wallet Samples.history Samples.wallet_after_history
           eq_refl eq_refl).
Defined.

Lemma replay_keeps_records_witness :
  replay "0xA" Runtime.wallet Samples.history = Normal Samples.wallet_after_history
  /\ transactions Runtime.wallet !! 0%nat = Some Runtime.pending_tx
  /\ exists tx', transactions Samples.wallet_after_history !! 1%nat = Some tx'
                 /\ later_version Runtime.pending_tx tx'.
Proof.
  split; [reflexivity|]. split; [reflexivity|].
  exact (MultiSigWalletFacts.replay_keeps_records (H := Runtime.builtins)
           "0xA" Runtime.wallet Samples.history Samples.wallet_after_history
           0%nat Runtime.pending_tx eq_refl eq_refl).
Defined.

Lemma unparseable_index_ignored_witness :
  parseInt "abc" = NaN
  /\ addressed_to "0xB" "abc" (ConfirmTransaction "0xB" "abc")
  /\ fold "0xA" Runtime.wallet (ConfirmTransaction "0xB" "abc") = Normal Runtime.wallet.
Proof.
  assert (Ha : addressed_to "0xB" "abc" (ConfirmTransaction "0xB" "abc")) by constructor.
  split; [reflexivity|]. split; [exact Ha|].
  exact (MultiSigWalletFacts.unparseable_index_ignored (H := Runtime.builtins)
           "0xA" Runtime.wallet "0xB" "abc" _ eq_refl Ha).
Defined.

Lemma other_records_untouched_witness :
  addressed_to "0xB" "1" (ConfirmTransaction "0xB" "1")
  /\ transactions Samples.wallet_after_history !! 1%nat = Some Samples.first_tx_executed
  /\ strict_eq (txIndex Samples.first_tx_executed) (parseInt "1") = false
  /\ exists state',
       fold "0xA" Samples.wallet_after_history (ConfirmTransaction "0xB" "1") = Normal state'
       /\ transactions state' !! 1%nat = Some Samples.first_tx_executed
       /\ length (transactions state') = length (transactions Samples.wallet_after_history).
Proof.
  assert (Ha : addressed_to "0xB" "1" (ConfirmTransaction "0xB" "1")) by constructor.
  split; [exact Ha|]. split; [reflexivity|]. split; [reflexivity|].
  exact (MultiSigWalletFacts.other_records_untouched (H := Runtime.builtins)
           "0xA" Samples.wallet_after_history "0xB" "1" _ 1%nat
           Samples.first_tx_executed Ha eq_refl eq_refl).
Defined.

Lemma NaN_record_out_of_reach_witness :
  addressed_to "0xB" "abc" (ExecuteTransaction "0xB" "abc")
  /\ transactions (Runtime.wallet_of [Samples.nan_tx]) !! 0%nat = Some Samples.nan_tx
  /\ txIndex Samples.nan_tx = NaN
  /\ exists state',
       fold "0xA" (Runtime.wallet_of [Samples.nan_tx]) (ExecuteTransaction "0xB" "abc")
         = Normal state'
       /\ transactions state' !! 0%nat = Some Samples.nan_tx.
Proof.
  assert (Ha : addressed_to "0xB" "abc" (ExecuteTransaction "0xB" "abc")) by constructor.
  split; [exact Ha|]. split; [reflexivity|]. split; [reflexivity|].
  exact (MultiSigWalletFacts.NaN_record_out_of_reach (H := Runtime.builtins)
           "0xA" (Runtime.wallet_of [Samples.nan_tx]) "0xB" "abc" _ 0%nat
           Samples.nan_tx Ha eq_refl eq_refl).
Defined.

Lemma execute_effect_witness :
  transactions Runtime.wallet !! 0%nat = Some Runtime.pending_tx
  /\ strict_eq (txIndex Runtime.pending_tx) (parseInt "0") = true
  /\ exists state' tx',
       fold "0xA" Runtime.wallet (ExecuteTransaction "0xB" "0") = Normal state'
       /\ transactions state' !! 0%nat = Some tx'
       /\ executed tx' = true
       /\ numConfirmations tx' = Num 0
       /\ isConfirmedByCurrentAccount tx' = false
       /\ later_version Runtime.pending_tx tx'.
Proof.
  split; [reflexivity|]. split; [reflexivity|].
  exact (MultiSigWalletFacts.execute_effect (H := Runtime.builtins)
           "0xA" Runtime.wallet "0xB" "0" 0%nat Runtime.pending_tx eq_refl eq_refl).
Defined.

Lemma revoke_effect_witness :
  transactions Runtime.wallet_executed !! 0%nat = Some Runtime.executed_tx
  /\ strict_eq (txIndex Runtime.executed_tx) (parseInt "0") = true
  /\ exists state' tx',
       fold "0xA" Runtime.wallet_executed (RevokeConfirmation "0xB" "0") = Normal state'
       /\ transactions state' !! 0%nat = Some tx'
       /\ numConfirmations tx' = Num 1
       /\ isConfirmedByCurrentAccount tx' = true.
Proof.
  split; [reflexivity|]. split; [reflexivity|].
  destruct (MultiSigWalletFacts.revoke_effect (H := Runtime.builtins)
              "0xA" Runtime.wallet_executed "0xB" "0" 0%nat Runtime.executed_tx
              eq_refl eq_refl)
    as (state' & tx' & Hfold & Hk & Hn & _ & Hother & _).
  exists state', tx'. split; [exact Hfold|]. split; [exact Hk|].
  split; [exact Hn|]. apply Hother. discriminate.
Defined.

Lemma confirm_counted_each_time_witness :
  transactions Runtime.wallet !! 0%nat = Some Runtime.pending_tx
  /\ strict_eq (txIndex Runtime.pending_tx) (parseInt "0") = true
  /\ numConfirmations Runtime.pending_tx = Num 0
  /\ exists state' tx',
       replay "0xA" Runtime.wallet (replicate 3 (ConfirmTransaction "0xB" "0"))
         = Normal state'
       /\ transactions state' !! 0%nat = Some tx'
       /\ numConfirmations tx' = Num 3.
Proof.
  split; [reflexivity|]. split; [reflexivity|]. split; [reflexivity|].
  exact (MultiSigWalletFacts.confirm_counted_each_time (H := Runtime.builtins)
           "0xA" "0xB" "0" 3 Runtime.wallet 0%nat Runtime.pending_tx 0%Z
           eq_refl eq_refl eq_refl).
Defined.

Lemma submitted_record_is_addressable_witness :
  toBN "7" = Normal 7%Z
  /\ parseInt "1" = Num 1
  /\ exists state',
       replay "0xA" Runtime.wallet
         [SubmitTransaction "0xA" "1" "0xE" "7" "0x"; ConfirmTransaction "0xA" "1"]
         = Normal state'
       /\ transactions state' !! 0%nat =
            Some {| txIndex := Num 1; to := "0xE"; value := 7%Z; data := "0x";
                    executed := false; numConfirmations := Num 1;
                    isConfirmedByCurrentAccount := true |}
       /\ length (transactions state') = 2%nat.
Proof.
  split; [reflexivity|]. split; [reflexivity|].
  exact (MultiSigWalletFacts.submitted_record_is_addressable (H := Runtime.builtins)
           "0xA" Runtime.wallet "0xA" "1" "0xE" "7" "0x" 7%Z 1%Z "0xA"
           eq_refl eq_refl).
Defined.

Lemma bootstrap_outcome_witness :
  (bootstrap None (Normal Runtime.wallet) INITIAL_STATE = Normal INITIAL_STATE
   /\ Updater_subscribes None INITIAL_STATE = false)
  /\ (bootstrap (Some (Web3Api.mkWeb3 Runtime.provider_approved))
        (Normal Runtime.wallet) INITIAL_STATE = Normal Runtime.wallet
      /\ Updater_subscribes (Some (Web3Api.mkWeb3 Runtime.provider_approved))
           Runtime.wallet = true).
Proof.
  split.
  - destruct (MultiSigWalletFacts.bootstrap_outcome (H := Runtime.builtins)
                None (Normal Runtime.wallet) INITIAL_STATE) as [Hfail _].
    destruct (Hfail (or_introl eq_refl)) as [Hsame Hsub].
    split; [exact Hsame|exact (Hsub eq_refl)].
  - destruct (MultiSigWalletFacts.bootstrap_outcome (H := Runtime.builtins)
                (Some (Web3Api.mkWeb3 Runtime.provider_approved))
                (Normal Runtime.wallet) INITIAL_STATE) as [_ Hok].
    destruct (Hok _ _ eq_refl eq_refl) as [Hdata Hsub].
    split; [exact Hdata|]. apply Hsub. discriminate.
Defined.

End MultiSigWallet.

Section Web3Context.
Import Web3Context.

Lemma web3_stays_set_witness :
  is_Some (web3 Samples.connected)
  /\ is_Some (web3 (foldl reducer Samples.connected
                      [UPDATE_ACCOUNT "0xB" None; UPDATE_NET_ID (Num 5)])).
Proof.
  assert (Hset : is_Some (web3 Samples.connected)) by (by eexists).
  split; [exact Hset|].
  exact (Web3ContextFacts.web3_stays_set
           [UPDATE_ACCOUNT "0xB" None; UPDATE_NET_ID (Num 5)] Samples.connected Hset).
Defined.

Lemma netId_adopted_then_watched_witness :
  netId Samples.connected = Num 0
  /\ truthy (Num 5) = true
  /\ netId_poll Samples.connected (Normal (Num 5)) = [updateNetId (Num 5)]
  /\ netId (dispatched Samples.connected
              (netId_poll Samples.connected (Normal (Num 5)))) = Num 5.
Proof.
  split; [reflexivity|]. split; [reflexivity|].
  destruct (Web3ContextFacts.netId_adopted_then_watched
              Samples.connected (Num 5) eq_refl eq_refl) as (Hpoll & Hid & _).
  split; [exact Hpoll|exact Hid].
Defined.

Lemma netId_poll_never_witness :
  strict_eq (netId Samples.connected) (Num 0) = true
  /\ location_reload ∉ netId_poll Samples.connected (Normal (Num 5)).
Proof.
  split; [reflexivity|].
  destruct (Web3ContextFacts.netId_poll_never Samples.connected) as (Hreload & _).
  exact (Hreload (Normal (Num 5)) eq_refl).
Defined.

End Web3Context.

Section Polling.
Import Web3Api Web3ApiCount.

Lemma one_call_per_tick_witness :
  let evs := [Tick; Tick; Settle (Normal ["0xA"%string]); Unsubscribe;
              Settle (Throw (mkError "timeout"))] in
  let s' := {| interval := false; pending := 0;
               calls := [(Some (mkError "timeout"), None);
                         (None, Some (Some "0xA"%string))] |} in
  (forall c, Runtime.quiet_callback (V := option string) c = Normal ())
  /\ run (subscribeToAccount_handler Runtime.quiet_callback) subscribeToAccount evs
       = Some s'
  /\ (length (calls s') + pending s' = ticks evs)%nat.
Proof.
  intros evs s'.
  assert (Hquiet : forall c, Runtime.quiet_callback (V := option string) c = Normal ())
    by reflexivity.
  split; [exact Hquiet|]. split; [reflexivity|].
  exact (proj1 Web3ApiFacts.one_call_per_tick
           Runtime.quiet_callback evs s' Hquiet eq_refl).
Defined.

End Polling.

Section FrontRunMe.
Import FrontRunMe.
Open Scope Z_scope.

Lemma anyone_with_the_secret_is_paid_all_witness :
  let c1 := {| addressToSecret := <[2 := 77]> (addressToSecret Samples.vault);
               balance := 15 |} in
  let c2 := {| addressToSecret := addressToSecret c1; balance := 0 |} in
  deposit Samples.vault (mkMsg 2 5) 77 = Success c1
  /\ value (mkMsg 9 0) = 0
  /\ accepts 9 (balance c1) c2 = Some c2
  /\ withdraw accepts c1 (mkMsg 9 0) 2 77 = Success (c2, 15).
Proof.
  intros c1 c2. split; [reflexivity|]. split; [reflexivity|]. split; [reflexivity|].
  exact (FrontRunMeFacts.anyone_with_the_secret_is_paid_all
           accepts Samples.vault (mkMsg 2 5) 77 c1 (mkMsg 9 0) c2
           eq_refl eq_refl eq_refl).
Defined.

Lemma unset_secret_is_zero_witness :
  let c' := {| addressToSecret := addressToSecret Samples.vault; balance := 0 |} in
  addressToSecret Samples.vault !! 5 = None
  /\ value (mkMsg 9 0) = 0
  /\ accepts 9 (balance Samples.vault) c' = Some c'
  /\ withdraw accepts Samples.vault (mkMsg 9 0) 5 0 = Success (c', 10).
Proof.
  intros c'. split; [reflexivity|]. split; [reflexivity|]. split; [reflexivity|].
  exact (FrontRunMeFacts.unset_secret_is_zero
           accepts Samples.vault (mkMsg 9 0) 5 c' eq_refl eq_refl eq_refl).
Defined.

Lemma deposit_replaces_secret_witness :
  let c1 := {| addressToSecret := <[2 := 77]> (addressToSecret Samples.vault);
               balance := 15 |} in
  let c2 := {| addressToSecret := <[2 := 88]> (addressToSecret c1);
               balance := 18 |} in
  let c3 := {| addressToSecret := addressToSecret c2; balance := 0 |} in
  deposit Samples.vault (mkMsg 2 5) 77 = Success c1
  /\ deposit c1 (mkMsg 2 3) 88 = Success c2
  /\ withdraw accepts c2 (mkMsg 9 0) 2 77 = Revert "Wrong Password!"
  /\ withdraw accepts c2 (mkMsg 9 0) 2 88 = Success (c3, 18).
Proof.
  intros c1 c2 c3. split; [reflexivity|]. split; [reflexivity|].
  assert (Hne : (77 : Z) <> 88) by discriminate.
  exact (FrontRunMeFacts.deposit_replaces_secret
           accepts Samples.vault (mkMsg 2 5) (mkMsg 2 3) 77 88 c1 c2 (mkMsg 9 0) c3
           eq_refl eq_refl eq_refl Hne eq_refl eq_refl).
Defined.

End FrontRunMe.

End FactsRuns.
